(** * Alx_campstone: order workflow, ownership gates, ratings and login tokens

    A shallow embedding of the Django REST framework application in
    [products/] and [users/]: the relational store is a record of tables,
    every view is a function from the store and the request to the new
    store and a result, and exceptions are values of the result type. *)

From Stdlib Require Import ZArith QArith List String Ascii Lia.
From Stdlib Require Import Floats.SpecFloat.
From stdpp Require Import gmap strings pretty list fin_maps.

Local Open Scope string_scope.
Local Open Scope Z_scope.

(** ** Python values reaching the views *)

Module Py.

(** The values a parsed request body can hold (JSON or form data). *)
#[local] Unset Elimination Schemes.
Inductive pyval : Type :=
| PyNone
| PyBool (b : bool)
| PyInt (z : Z)
| PyFloat (f : spec_float)
| PyStr (s : string)
| PyList (l : list pyval)
| PyDict (d : list (string * pyval)).
#[local] Set Elimination Schemes.

(** The builtin exceptions [int] can raise. *)
Inductive exn : Type := ValueError | TypeError | OverflowError.

Inductive outcome (A : Type) : Type :=
| Ret (a : A)
| Raise (e : exn).
Arguments Ret {A} a.
Arguments Raise {A} e.

(** [bool(v)], the test behind [if not quantity]. *)
Definition truthy (v : pyval) : bool :=
  match v with
  | PyNone => false
  | PyBool b => b
  | PyInt z => negb (z =? 0)
  | PyFloat (S754_zero _) => false
  | PyFloat _ => true
  | PyStr s => negb (String.eqb s "")
  | PyList l => match l with [] => false | _ => true end
  | PyDict d => match d with [] => false | _ => true end
  end.

(** Text is modelled over ASCII: [int] also accepts the decimal digits and
    white space of other scripts, which are outside this model. The white
    space [int] strips from ASCII text is the codes 9 to 13 and 32. *)
Definition is_space (c : ascii) : bool :=
  let n := N_of_ascii c in
  (((9 <=? n) && (n <=? 13)) || (n =? 32))%N.

Definition is_digit (c : ascii) : bool :=
  let n := N_of_ascii c in ((48 <=? n) && (n <=? 57))%N.

Definition digit_val (c : ascii) : Z := Z.of_N (N_of_ascii c) - 48.

Fixpoint lstrip (l : list ascii) : list ascii :=
  match l with
  | c :: r => if is_space c then lstrip r else l
  | [] => []
  end.

Definition strip (l : list ascii) : list ascii :=
  rev (lstrip (rev (lstrip l))).

(** Digits with single underscores between them; [prev] records that the
    previous character was a digit. *)
Fixpoint parse_digits (acc : Z) (prev : bool) (l : list ascii) : option Z :=
  match l with
  | [] => if prev then Some acc else None
  | c :: r =>
      if is_digit c then parse_digits (10 * acc + digit_val c) true r
      else if Ascii.eqb c "_"%char && prev then parse_digits acc false r
      else None
  end.

(** CPython's default limit on the digits of a decimal literal
    ([sys.get_int_max_str_digits()]); a longer one is a [ValueError]. *)
Definition int_max_str_digits : nat := 4300.

Definition count_digits (l : list ascii) : nat :=
  List.length (List.filter is_digit l).

Definition parse_unsigned (l : list ascii) : option Z :=
  if (int_max_str_digits <? count_digits l)%nat then None
  else parse_digits 0 false l.

(** [int(s)] for a string, base 10. *)
Definition int_of_str (s : string) : option Z :=
  match strip (list_ascii_of_string s) with
  | "-"%char :: r => Z.opp <$> parse_unsigned r
  | "+"%char :: r => parse_unsigned r
  | l => parse_unsigned l
  end.

(** [int(f)] for a finite float: truncation towards zero. *)
Definition trunc_finite (s : bool) (m : positive) (e : Z) : Z :=
  let a := if 0 <=? e then Z.shiftl (Z.pos m) e else Z.shiftr (Z.pos m) (- e) in
  if s then - a else a.

(** [int(v)]. *)
Definition int (v : pyval) : outcome Z :=
  match v with
  | PyNone => Raise TypeError
  | PyBool b => Ret (if b then 1 else 0)
  | PyInt z => Ret z
  | PyFloat (S754_zero _) => Ret 0
  | PyFloat (S754_infinity _) => Raise OverflowError
  | PyFloat S754_nan => Raise ValueError
  | PyFloat (S754_finite s m e) => Ret (trunc_finite s m e)
  | PyStr s =>
      match int_of_str s with
      | Some z => Ret z
      | None => Raise ValueError
      end
  | PyList _ | PyDict _ => Raise TypeError
  end.

End Py.
Import Py.

(** ** Models ([products/models.py], [users/models.py])

    A foreign key holds the primary key of the row it points to; a
    [DecimalField(decimal_places=2)] holds its value in hundredths. *)

Module CustomUser.
Record t : Type := mk {
  username : string;
  email : string;
  country : string;
  profile_picture : option string;
  password : string;
  is_active : bool }.
End CustomUser.

Module Product.
Record t : Type := mk {
  name : string;
  price : Z;
  description : string;
  image : option string;
  stock_quantity : Z;
  created_date : Z;
  category : string;
  user : Z }.

Definition with_stock_quantity (q : Z) (p : t) : t :=
  mk (name p) (price p) (description p) (image p) q (created_date p)
     (category p) (user p).
End Product.

Module Rate.
Record t : Type := mk { user : Z; product : Z; rating : Z }.
End Rate.

Module Order.
Record t : Type := mk { product : Z; quantity : Z; user : Z }.
End Order.

Module Review.
Record t : Type := mk {
  product : Z;
  user : Z;
  review : option string;
  review_date : Z }.
End Review.

(** [CATEGORY_CHOICES], the stored values. *)
Definition CATEGORY_CHOICES : list string :=
  ["pants"; "t-shirts"; "shoes"; "jerseys"; "dresses"; "socks"; "shorts"].

(** ** The relational store

    One table per model, keyed by primary key; [tokens] is the table of
    [rest_framework.authtoken.models.Token], one row per user, holding the
    token key. *)

Record DB : Type := mkDB {
  users : gmap Z CustomUser.t;
  tokens : gmap Z string;
  products : gmap Z Product.t;
  orders : gmap Z Order.t;
  reviews : gmap Z Review.t;
  ratings : gmap Z Rate.t }.

Definition with_tokens (t : gmap Z string) (st : DB) : DB :=
  mkDB (users st) t (products st) (orders st) (reviews st) (ratings st).

Definition with_products (p : gmap Z Product.t) (st : DB) : DB :=
  mkDB (users st) (tokens st) p (orders st) (reviews st) (ratings st).

Definition with_orders (o : gmap Z Order.t) (st : DB) : DB :=
  mkDB (users st) (tokens st) (products st) o (reviews st) (ratings st).

Definition with_reviews (r : gmap Z Review.t) (st : DB) : DB :=
  mkDB (users st) (tokens st) (products st) (orders st) r (ratings st).

(** The key an [AutoField] gives a new row, a key that no row has: here one
    past the largest in use (the database may also skip the keys of rows
    that were deleted; only that the key is new is relied on). *)
Definition next_pk {A : Type} (table : gmap Z A) : Z :=
  1 + map_fold (fun k _ acc => Z.max k acc) 0 table.

(** ** Requests and results *)

Module Request.
(** [user] is [None] for [AnonymousUser]; [data] is the parsed body, an
    object keyed by field name; [query_params] the query string. *)
Record t : Type := mk {
  user : option Z;
  data : gmap string pyval;
  query_params : gmap string string }.
End Request.

Inductive exception : Type :=
| Http404
| PermissionDenied (detail : string)
| NotAuthenticated
| ValidationError (detail : list (string * string))
| DjangoValidationError (message : string)
| Builtin (e : Py.exn)
| IntegrityError
| MultipleObjectsReturned.

(** The HTTP status the framework's exception handler answers with; what it
    does not handle ends as a server error. *)
Definition exception_status (e : exception) : Z :=
  match e with
  | Http404 => 404
  | PermissionDenied _ => 403
  | NotAuthenticated => 401
  | ValidationError _ => 400
  | DjangoValidationError _ | Builtin _ | IntegrityError
  | MultipleObjectsReturned => 500
  end.

Inductive payload : Type :=
| Message (message : string)
| OrderData (message : option string) (data : Order.t)
| ProductData (message : string) (data : Product.t) (average_rating : Q)
| ReviewData (message : string) (data : Review.t)
| TokenData (message : string) (token : string)
| Errors (errors : list (string * string)).

Inductive result : Type :=
| Response (body : payload) (status : Z)
| Raised (e : exception).

Definition HTTP_200_OK : Z := 200.
Definition HTTP_201_CREATED : Z := 201.
Definition HTTP_204_NO_CONTENT : Z := 204.
Definition HTTP_400_BAD_REQUEST : Z := 400.

(** ** Framework pieces the views call *)

Inductive permission : Type := AllowAny | IsAuthenticated.

Definition has_permission (p : permission) (request : Request.t) : bool :=
  match p with
  | AllowAny => true
  | IsAuthenticated => bool_decide (is_Some (Request.user request))
  end.

Definition check_permissions (ps : list permission) (request : Request.t) : bool :=
  forallb (fun p => has_permission p request) ps.

(** A queryset names a table of the store; it is read when it is used. *)
Definition QuerySet (A : Type) : Type := DB -> gmap Z A.

(** [django.shortcuts.get_object_or_404(klass, pk=pk, ...)]: [klass] must
    be a model, manager or queryset, anything else ([None] here) is a
    [ValueError]; [cond] stands for the lookups given besides [pk]. *)
Definition get_object_or_404 {A : Type} (klass : option (QuerySet A))
    (st : DB) (pk : Z) (cond : A -> bool) : exception + A :=
  match klass with
  | None => inl (Builtin ValueError)
  | Some queryset =>
      match queryset st !! pk with
      | Some row => if cond row then inr row else inl Http404
      | None => inl Http404
      end
  end.

(** *** Serializer fields

    A field of a serializer either yields a value, reports an error code, or
    lets an exception through. *)

Module Field.
Inductive result (A : Type) : Type :=
| Valid (a : A)
| Invalid (code : string)
| Crash (e : Py.exn).
Arguments Valid {A} a.
Arguments Invalid {A} code.
Arguments Crash {A} e.

Record t (A : Type) : Type := mk {
  required : bool;
  run_validation : DB -> pyval -> result A }.
Arguments required {A} _.
Arguments run_validation {A} _ _ _.
Arguments mk {A} _ _.
End Field.

(** What a field reads from the body: nothing when its key is absent and it
    is not required or the update is partial. *)
Definition field_value {A : Type} (f : Field.t A) (partial : bool) (st : DB)
    (data : gmap string pyval) (field_name : string) : option (Field.result A) :=
  match data !! field_name with
  | None =>
      if partial then None
      else if Field.required f then Some (Field.Invalid "required")
      else None
  | Some v => Some (Field.run_validation f st v)
  end.

(** Errors of all fields are gathered; an exception ends the validation. *)
Inductive validation (A : Type) : Type :=
| Gathered (errors : list (string * string)) (value : A)
| Crashed (e : Py.exn).
Arguments Gathered {A} errors value.
Arguments Crashed {A} e.

Definition gather {A B : Type} (field_name : string)
    (r : option (Field.result B)) (set : B -> A -> A)
    (acc : validation A) : validation A :=
  match acc with
  | Crashed e => Crashed e
  | Gathered errs v =>
      match r with
      | None => acc
      | Some (Field.Valid b) => Gathered errs (set b v)
      | Some (Field.Invalid code) => Gathered (errs ++ [(field_name, code)]) v
      | Some (Field.Crash e) => Crashed e
      end
  end.

(** [is_valid(raise_exception=True)]. *)
Definition is_valid {A : Type} (acc : validation A) : exception + A :=
  match acc with
  | Crashed e => inl (Builtin e)
  | Gathered [] v => inr v
  | Gathered errs _ => inl (ValidationError errs)
  end.

(** [PrimaryKeyRelatedField(queryset=...)]: the key is looked up in the
    related table. *)
Definition PrimaryKeyRelatedField {A : Type} (queryset : QuerySet A) : Field.t Z :=
  Field.mk true (fun st data =>
    match data with
    | PyNone | PyStr "" => Field.Invalid "null"
    | PyBool _ => Field.Invalid "incorrect_type"
    | _ =>
        match Py.int data with
        | Ret pk =>
            match queryset st !! pk with
            | Some _ => Field.Valid pk
            | None => Field.Invalid "does_not_exist"
            end
        | Raise OverflowError => Field.Crash OverflowError
        | Raise _ => Field.Invalid "incorrect_type"
        end
    end).

(** [\s] of a regular expression on text: the white space of [int] and
    the separators 28 to 31. *)
Definition is_regex_space (c : ascii) : bool :=
  let n := N_of_ascii c in
  (is_space c || ((28 <=? n) && (n <=? 31)))%N.

(** [IntegerField.re_decimal], [\.0*\s*$], removed from the text. *)
Fixpoint only_spaces (l : list ascii) : bool :=
  match l with
  | [] => true
  | c :: r => is_regex_space c && only_spaces r
  end.

Fixpoint zeros_then_spaces (l : list ascii) : bool :=
  match l with
  | [] => true
  | c :: r => if Ascii.eqb c "0"%char then zeros_then_spaces r else only_spaces l
  end.

Fixpoint re_decimal_sub (l : list ascii) : list ascii :=
  match l with
  | [] => []
  | c :: r =>
      if Ascii.eqb c "."%char && zeros_then_spaces r then []
      else c :: re_decimal_sub r
  end.

(** A float whose text is [d...d.0]: integral and below [1e16]. *)
Definition float_as_integer (f : spec_float) : option Z :=
  match f with
  | S754_zero _ => Some 0
  | S754_finite s m e =>
      let z := trunc_finite s m e in
      if ((0 <=? e) || (Z.land (Z.pos m) (Z.ones (- e)) =? 0))
         && (Z.abs z <? 10 ^ 16)
      then Some z else None
  | _ => None
  end.

(** [IntegerField(min_value=..., max_value=...)]. *)
Definition IntegerField (required : bool) (min_value max_value : Z) : Field.t Z :=
  Field.mk required (fun _ data =>
    let too_long :=
      match data with
      | PyStr s => (1000 <? String.length s)%nat
      | _ => false
      end in
    let parsed :=
      match data with
      | PyInt z => Some z
      | PyStr s =>
          int_of_str (string_of_list_ascii
                        (re_decimal_sub (list_ascii_of_string s)))
      | PyFloat f => float_as_integer f
      | _ => None
      end in
    match data, parsed with
    | PyNone, _ => Field.Invalid "null"
    | _, _ =>
        if too_long then Field.Invalid "max_string_length"
        else
          match parsed with
          | None => Field.Invalid "invalid"
          | Some z =>
              if max_value <? z then Field.Invalid "max_value"
              else if z <? min_value then Field.Invalid "min_value"
              else Field.Valid z
          end
    end).

(** The range of a [PositiveIntegerField] column (SQLite, the default
    backend). *)
Definition positive_integer_max : Z := 9223372036854775807.

(** The field classes of the framework that the serializers of this
    application instantiate, the password hasher and the [Decimal]
    constructor: what they accept is theirs to say. *)
Class Framework : Type := {
  CharField : option nat -> pyval -> Field.result string;
  DecimalField : nat -> nat -> pyval -> Field.result Z;
  ImageField : pyval -> Field.result string;
  ChoiceField : list string -> pyval -> Field.result string;
  DateTimeField : pyval -> Field.result Z;
  Decimal : string -> option Q;
  check_password : string -> string -> bool }.

(** [allow_null=True] around a field. *)
Definition allow_null {A : Type} (f : pyval -> Field.result A)
    (v : pyval) : Field.result (option A) :=
  match v with
  | PyNone => Field.Valid None
  | _ =>
      match f v with
      | Field.Valid a => Field.Valid (Some a)
      | Field.Invalid code => Field.Invalid code
      | Field.Crash e => Field.Crash e
      end
  end.

(** A [validate_<field>] method, run on the value the field produced. *)
Definition validate_method {A : Type} (validate : A -> Field.result A)
    (r : option (Field.result A)) : option (Field.result A) :=
  match r with
  | Some (Field.Valid a) => Some (validate a)
  | _ => r
  end.

(** ** [products/serializers.py]: OrderSerializer *)

Module OrderSerializer.

Definition fields : list string := ["product"; "quantity"; "user"].

(** The validated data: a field is [None] when the body did not carry it. *)
Record validated : Type := mk {
  product : option Z;
  quantity : option Z;
  user : option Z }.

Definition to_internal_value (partial : bool) (st : DB)
    (data : gmap string pyval) : exception + validated :=
  is_valid
    (gather "user"
       (field_value (PrimaryKeyRelatedField users) partial st data "user")
       (fun v d => mk (product d) (quantity d) (Some v))
    (gather "quantity"
       (field_value (IntegerField true 0 positive_integer_max) partial st data "quantity")
       (fun v d => mk (product d) (Some v) (user d))
    (gather "product"
       (field_value (PrimaryKeyRelatedField products) partial st data "product")
       (fun v d => mk (Some v) (quantity d) (user d))
    (Gathered [] (mk None None None))))).

(** [ModelSerializer.update]: the validated attributes are set on the
    instance. *)
Definition update (instance : Order.t) (d : validated) : Order.t :=
  Order.mk (default (Order.product instance) (product d))
           (default (Order.quantity instance) (quantity d))
           (default (Order.user instance) (user d)).

(** [ModelSerializer.create]: every field is required, so all are there. *)
Definition create (d : validated) : option Order.t :=
  match product d, quantity d, user d with
  | Some p, Some q, Some u => Some (Order.mk p q u)
  | _, _, _ => None
  end.

End OrderSerializer.

(** ** [products/views.py]: OrderViewSet *)

Module OrderViewSet.

Definition permission_classes : list permission := [IsAuthenticated].

(** The class declares [permission_classes] and [serializer_class] only:
    [self.queryset] is the [None] it inherits from [GenericAPIView] (which is
    why [products/urls.py] has to register it with a [basename]). *)
Definition queryset : option (QuerySet Order.t) := None.

(** The permission check the framework runs before an action; the action
    receives the primary key of [request.user]. *)
Definition initial (st : DB) (request : Request.t)
    (action : Z -> DB * result) : DB * result :=
  match check_permissions permission_classes request, Request.user request with
  | true, Some u => action u
  | _, _ => (st, Raised NotAuthenticated)
  end.

(** The rows [Order.objects.get(user=u, product=p)] finds. *)
Definition matching (u p : Z) (st : DB) : gmap Z Order.t :=
  filter (fun kv => Order.user kv.2 = u /\ Order.product kv.2 = p) (orders st).

(** [Order.objects.create]: the column of a [PositiveIntegerField] refuses
    a negative value. *)
Definition Order_objects_create (st : DB) (o : Order.t) : exception + DB :=
  if Order.quantity o <? 0 then inl IntegrityError
  else inr (with_orders (<[next_pk (orders st) := o]> (orders st)) st).

(** [Order.objects.get_or_create(user=u, product=p, defaults={'quantity': q})]:
    [true] when the row was created. *)
Definition get_or_create (st : DB) (u p q : Z) : exception + DB * bool :=
  match size (matching u p st) with
  | O =>
      match Order_objects_create st (Order.mk p q u) with
      | inl e => inl e
      | inr st' => inr (st', true)
      end
  | S O => inr (st, false)
  | _ => inl MultipleObjectsReturned
  end.

(** [product_to_order.save()] after [stock_quantity -= quantity]. The
    range of the column is not modelled: the database refuses, with an
    [OverflowError] and no write, a value above [2^63 - 1], which only a
    negative quantity of that size can produce. *)
Definition save_product (st : DB) (pk : Z) (p : Product.t) : DB :=
  with_products (<[pk := p]> (products st)) st.

Definition create_order (st : DB) (request : Request.t) (pk : Z) : DB * result :=
  initial st request (fun u =>
    match get_object_or_404 (Some products) st pk (fun _ => true) with
    | inl e => (st, Raised e)
    | inr product_to_order =>
        let quantity := default PyNone (Request.data request !! "quantity") in
        if negb (truthy quantity)
        then (st, Response (Message "Quantity is required") HTTP_400_BAD_REQUEST)
        else
          match Py.int quantity with
          | Raise ValueError =>
              (st, Response (Message "Invalid quantity value") HTTP_400_BAD_REQUEST)
          | Raise e => (st, Raised (Builtin e))
          | Ret quantity =>
              if Product.stock_quantity product_to_order <? quantity
              then (st, Response (Message "Not enough stock available")
                                 HTTP_400_BAD_REQUEST)
              else
                let st1 :=
                  save_product st pk
                    (Product.with_stock_quantity
                       (Product.stock_quantity product_to_order - quantity)
                       product_to_order) in
                match get_or_create st1 u pk quantity with
                | inl e => (st1, Raised e)
                | inr (st2, true) =>
                    (st2, Response (Message "Order successful") HTTP_201_CREATED)
                | inr (st2, false) =>
                    (st2, Response (Message "Order already exists")
                                   HTTP_400_BAD_REQUEST)
                end
          end
    end).

(** The lookup the four scoped actions start with:
    [get_object_or_404(self.queryset, pk=pk, user=request.user)]. *)
Definition scoped_order (st : DB) (u pk : Z) : exception + Order.t :=
  get_object_or_404 queryset st pk (fun o => Order.user o =? u).

Definition retrieve (st : DB) (request : Request.t) (pk : Z) : DB * result :=
  initial st request (fun u =>
    match scoped_order st u pk with
    | inl e => (st, Raised e)
    | inr order => (st, Response (OrderData None order) HTTP_200_OK)
    end).

Definition perform_update (st : DB) (pk : Z) (o : Order.t) : DB :=
  with_orders (<[pk := o]> (orders st)) st.

Definition update_with (partial : bool) (message : string)
    (st : DB) (request : Request.t) (pk : Z) : DB * result :=
  initial st request (fun u =>
    match scoped_order st u pk with
    | inl e => (st, Raised e)
    | inr order =>
        match OrderSerializer.to_internal_value partial st (Request.data request) with
        | inl e => (st, Raised e)
        | inr d =>
            let order' := OrderSerializer.update order d in
            (perform_update st pk order',
             Response (OrderData (Some message) order') HTTP_200_OK)
        end
    end).

Definition update : DB -> Request.t -> Z -> DB * result :=
  update_with false "Order updated successfully!".

Definition partial_update : DB -> Request.t -> Z -> DB * result :=
  update_with true "Order partially updated!".

Definition destroy (st : DB) (request : Request.t) (pk : Z) : DB * result :=
  initial st request (fun u =>
    match scoped_order st u pk with
    | inl e => (st, Raised e)
    | inr _ =>
        (with_orders (delete pk (orders st)) st,
         Response (Message "Order deleted successfully!") HTTP_204_NO_CONTENT)
    end).

(** [create], the action [ModelViewSet] brings with [CreateModelMixin] and
    the router serves at [POST orders/]: the class overrides neither it nor
    [perform_create]. *)
Definition create (st : DB) (request : Request.t) : DB * result :=
  initial st request (fun _ =>
    match OrderSerializer.to_internal_value false st (Request.data request) with
    | inl e => (st, Raised e)
    | inr d =>
        match OrderSerializer.create d with
        | None => (st, Raised IntegrityError)
        | Some o =>
            match Order_objects_create st o with
            | inl e => (st, Raised e)
            | inr st' => (st', Response (OrderData None o) HTTP_201_CREATED)
            end
        end
    end).

(** The outcomes of [create_order] under the names of the specification. *)
Definition Created : result :=
  Response (Message "Order successful") HTTP_201_CREATED.
Definition AlreadyExists : result :=
  Response (Message "Order already exists") HTTP_400_BAD_REQUEST.
Definition InsufficientStock : result :=
  Response (Message "Not enough stock available") HTTP_400_BAD_REQUEST.
Definition QuantityRequired : result :=
  Response (Message "Quantity is required") HTTP_400_BAD_REQUEST.
Definition InvalidQuantity : result :=
  Response (Message "Invalid quantity value") HTTP_400_BAD_REQUEST.
Definition NotFound : result := Raised Http404.

(** A sequence of [create_order] calls, each on the store the previous one
    left. *)
Fixpoint place_orders (st : DB) (calls : list (Request.t * Z)) : DB :=
  match calls with
  | [] => st
  | (request, pk) :: rest => place_orders (create_order st request pk).1 rest
  end.

End OrderViewSet.

(** ** [products/serializers.py]: ProductSerializer *)

Module ProductSerializer.
Section Serializer.
Context {framework : Framework}.

Definition Meta_fields : list string :=
  ["name"; "price"; "description"; "image"; "stock_quantity"; "category";
   "created_date"; "user"; "average_rating"].

Definition Meta_read_only_fields : list string := ["created_date"; "user"].

(** [average_rating] is a [SerializerMethodField], read-only by nature. *)
Definition method_fields : list string := ["average_rating"].

Definition _writable_fields : list string :=
  List.filter
    (fun f => negb (existsb (String.eqb f) (Meta_read_only_fields ++ method_fields)))
    Meta_fields.

(** The ratings of a product, through [related_name='ratings']. *)
Definition ratings_of (st : DB) (pk : Z) : list Z :=
  (fun kv => Rate.rating kv.2) <$>
    map_to_list (filter (fun kv => Rate.product kv.2 = pk) (ratings st)).

(** [aggregate(Avg(...))]: [None] over no rows; the database returns the
    float nearest to the quotient, the model keeps the exact quotient. *)
Definition Avg (values : list Z) : option Q :=
  let '(total, count) :=
    fold_left (fun '(t, c) v => (t + v, c + 1)) values (0, 0) in
  if count =? 0 then None else Some (inject_Z total / inject_Z count)%Q.

Definition get_average_rating (st : DB) (obj : Z) : Q :=
  let avg_rating := Avg (ratings_of st obj) in
  match avg_rating with
  | Some avg => avg
  | None => 0%Q
  end.

Definition validate_name (value : string) : Field.result string :=
  if negb (truthy (PyStr value))
  then Field.Invalid "Name cannot be blank"
  else Field.Valid value.

(** [0 <= value <= 1000], on hundredths. *)
Definition validate_price (value : Z) : Field.result Z :=
  if negb ((0 <=? value) && (value <=? 1000 * 100))
  then Field.Invalid "Price should be between $0.1 and $999"
  else Field.Valid value.

Definition validate_stock_quantity (value : Z) : Field.result Z :=
  if negb ((0 <=? value) && (value <=? 100))
  then Field.Invalid "Quantity should be between 0 to 100"
  else Field.Valid value.

Definition validate_category (value : string) : Field.result string :=
  if negb (truthy (PyStr value))
  then Field.Invalid "Select category"
  else Field.Valid value.

(** The validated data: a field is [None] when it was not read. *)
Record validated : Type := mk {
  name : option string;
  price : option Z;
  description : option string;
  image : option (option string);
  stock_quantity : option Z;
  category : option string;
  created_date : option Z;
  user : option Z }.

Definition empty : validated := mk None None None None None None None None.

Definition with_user (u : Z) (d : validated) : validated :=
  mk (name d) (price d) (description d) (image d) (stock_quantity d)
     (category d) (created_date d) (Some u).

(** One field of the serializer reads its key of the body. *)
Definition run_field (partial : bool) (st : DB) (data : gmap string pyval)
    (acc : validation validated) (field_name : string) : validation validated :=
  match field_name with
  | "name" =>
      gather field_name
        (validate_method validate_name
           (field_value (Field.mk true (fun _ => CharField (Some 100%nat)))
                        partial st data field_name))
        (fun v d => mk (Some v) (price d) (description d) (image d)
                       (stock_quantity d) (category d) (created_date d) (user d))
        acc
  | "price" =>
      gather field_name
        (validate_method validate_price
           (field_value (Field.mk true (fun _ => DecimalField 5 2))
                        partial st data field_name))
        (fun v d => mk (name d) (Some v) (description d) (image d)
                       (stock_quantity d) (category d) (created_date d) (user d))
        acc
  | "description" =>
      gather field_name
        (field_value (Field.mk true (fun _ => CharField (Some 500%nat)))
                     partial st data field_name)
        (fun v d => mk (name d) (price d) (Some v) (image d)
                       (stock_quantity d) (category d) (created_date d) (user d))
        acc
  | "image" =>
      gather field_name
        (field_value (Field.mk false (fun _ => allow_null ImageField))
                     partial st data field_name)
        (fun v d => mk (name d) (price d) (description d) (Some v)
                       (stock_quantity d) (category d) (created_date d) (user d))
        acc
  | "stock_quantity" =>
      gather field_name
        (validate_method validate_stock_quantity
           (field_value (IntegerField false 0 positive_integer_max)
                        partial st data field_name))
        (fun v d => mk (name d) (price d) (description d) (image d)
                       (Some v) (category d) (created_date d) (user d))
        acc
  | "category" =>
      gather field_name
        (validate_method validate_category
           (field_value (Field.mk true (fun _ => ChoiceField CATEGORY_CHOICES))
                        partial st data field_name))
        (fun v d => mk (name d) (price d) (description d) (image d)
                       (stock_quantity d) (Some v) (created_date d) (user d))
        acc
  | "created_date" =>
      gather field_name
        (field_value (Field.mk false (fun _ => DateTimeField))
                     partial st data field_name)
        (fun v d => mk (name d) (price d) (description d) (image d)
                       (stock_quantity d) (category d) (Some v) (user d))
        acc
  | "user" =>
      gather field_name
        (field_value (PrimaryKeyRelatedField users) partial st data field_name)
        with_user acc
  | _ => acc
  end.

(** [Serializer.to_internal_value]: the writable fields, in order. *)
Definition to_internal_value (partial : bool) (st : DB)
    (data : gmap string pyval) : exception + validated :=
  is_valid (fold_left (run_field partial st data) _writable_fields
                      (Gathered [] empty)).

(** [create(validated_data)]: the user of the request is written over
    whatever is there, then [Product.objects.create]; [created_date] is
    [auto_now_add], the clock of the server, and [stock_quantity] and [image]
    have the defaults of the model. *)
Definition create (request_user : Z) (now : Z) (validated_data : validated)
    : option Product.t :=
  let validated_data := with_user request_user validated_data in
  match name validated_data, price validated_data,
        description validated_data, category validated_data,
        user validated_data with
  | Some n, Some p, Some d, Some c, Some u =>
      Some (Product.mk n p d (default None (image validated_data))
                       (default 0 (stock_quantity validated_data)) now c u)
  | _, _, _, _, _ => None
  end.

(** [ModelSerializer.update]: the validated attributes are set on the
    instance. *)
Definition update (instance : Product.t) (d : validated) : Product.t :=
  Product.mk (default (Product.name instance) (name d))
             (default (Product.price instance) (price d))
             (default (Product.description instance) (description d))
             (default (Product.image instance) (image d))
             (default (Product.stock_quantity instance) (stock_quantity d))
             (default (Product.created_date instance) (created_date d))
             (default (Product.category instance) (category d))
             (default (Product.user instance) (user d)).

End Serializer.
End ProductSerializer.

(** ** [products/serializers.py]: ReviewSerializer *)

Module ReviewSerializer.
Section Serializer.
Context {framework : Framework}.

Definition Meta_fields : list string := ["product"; "review"; "review_date"].
Definition Meta_read_only_fields : list string := ["review_date"].

Record validated : Type := mk {
  product : option Z;
  review : option (option string) }.

Definition to_internal_value (partial : bool) (st : DB)
    (data : gmap string pyval) : exception + validated :=
  is_valid
    (gather "review"
       (field_value (Field.mk false (fun _ => allow_null (CharField (Some 100%nat))))
                    partial st data "review")
       (fun v d => mk (product d) (Some v))
    (gather "product"
       (field_value (PrimaryKeyRelatedField products) partial st data "product")
       (fun v d => mk (Some v) (review d))
    (Gathered [] (mk None None)))).

Definition update (instance : Review.t) (d : validated) : Review.t :=
  Review.mk (default (Review.product instance) (product d))
            (Review.user instance)
            (default (Review.review instance) (review d))
            (Review.review_date instance).

End Serializer.
End ReviewSerializer.

(** ** [products/views.py]: ProductViewSet *)

Inductive action : Type :=
| list_action | retrieve_action | create_action
| update_action | partial_update_action | destroy_action.

(** [get_permissions], the same in the product, review and rating
    viewsets: reading is open, the rest needs an authenticated user. *)
Definition get_permissions (a : action) : list permission :=
  match a with
  | list_action | retrieve_action => [AllowAny]
  | _ => [IsAuthenticated]
  end.

(** The check before a writing action; the action receives the primary key
    of [request.user]. *)
Definition authenticated (a : action) (st : DB) (request : Request.t)
    (handler : Z -> DB * result) : DB * result :=
  match check_permissions (get_permissions a) request, Request.user request with
  | true, Some u => handler u
  | _, _ => (st, Raised NotAuthenticated)
  end.

(** [icontains] on ASCII text. *)
Definition lower (c : ascii) : ascii :=
  let n := N_of_ascii c in
  if ((65 <=? n) && (n <=? 90))%N then ascii_of_N (n + 32) else c.

Fixpoint is_prefix (needle hay : list ascii) : bool :=
  match needle, hay with
  | [], _ => true
  | _ :: _, [] => false
  | a :: needle', b :: hay' => Ascii.eqb a b && is_prefix needle' hay'
  end.

Fixpoint contains (needle hay : list ascii) : bool :=
  is_prefix needle hay ||
  match hay with
  | [] => false
  | _ :: hay' => contains needle hay'
  end.

Definition icontains (hay needle : string) : bool :=
  contains (List.map lower (list_ascii_of_string needle))
           (List.map lower (list_ascii_of_string hay)).

Module ProductViewSet.
Section Views.
Context {framework : Framework}.

Definition queryset : QuerySet Product.t := products.

(** [get_queryset]: the filters of the query string; a [price] that is no
    decimal is the [django.core.exceptions.ValidationError] of the lookup,
    which the framework does not handle. Prices are compared as exact
    decimals; a database that compares them as floats can differ for a
    limit that lies within rounding of a price. *)
Definition get_queryset (request : Request.t) : exception + QuerySet Product.t :=
  let search := Request.query_params request !! "search" in
  let queryset1 : QuerySet Product.t :=
    match search with
    | Some search =>
        if truthy (PyStr search) then
          fun st =>
            filter (fun kv =>
                      icontains (Product.name kv.2) search
                      || icontains (Product.category kv.2) search
                      || icontains (pretty (Product.stock_quantity kv.2)) search
                      = true) (queryset st)
        else queryset
    | None => queryset
    end in
  let price := Request.query_params request !! "price" in
  match price with
  | Some price =>
      if truthy (PyStr price) then
        match Decimal price with
        | Some limit =>
            inr (fun st =>
                   filter (fun kv =>
                             Qle_bool (inject_Z (Product.price kv.2) / 100) limit
                             = true) (queryset1 st))
        | None => inl (DjangoValidationError "invalid")
        end
      else inr queryset1
  | None => inr queryset1
  end.

(** [get_object]: the row with this key among those of [get_queryset]. *)
Definition get_object (st : DB) (request : Request.t) (pk : Z)
    : exception + Product.t :=
  match get_queryset request with
  | inl e => inl e
  | inr queryset => get_object_or_404 (Some queryset) st pk (fun _ => true)
  end.

Definition serializer_data (message : string) (st : DB) (pk : Z)
    (p : Product.t) : payload :=
  ProductData message p (ProductSerializer.get_average_rating st pk).

(** [perform_create] saves with [user=self.request.user]. *)
Definition create (now : Z) (st : DB) (request : Request.t) : DB * result :=
  authenticated create_action st request (fun u =>
    match ProductSerializer.to_internal_value false st (Request.data request) with
    | inl e => (st, Raised e)
    | inr validated_data =>
        match ProductSerializer.create u now
                (ProductSerializer.with_user u validated_data) with
        | None => (st, Raised IntegrityError)
        | Some p =>
            let pk := next_pk (products st) in
            let st' := with_products (<[pk := p]> (products st)) st in
            (st', Response (serializer_data "Product(s) uploaded successfully!" st' pk p)
                           HTTP_201_CREATED)
        end
    end).

Definition update_with (a : action) (partial : bool) (message : string)
    (st : DB) (request : Request.t) (pk : Z) : DB * result :=
  authenticated a st request (fun u =>
    match get_object st request pk with
    | inl e => (st, Raised e)
    | inr instance =>
        if negb (Product.user instance =? u)
        then (st, Raised (PermissionDenied
                            "You do not have permission to edit this product(s)."))
        else
          match ProductSerializer.to_internal_value partial st
                  (Request.data request) with
          | inl e => (st, Raised e)
          | inr d =>
              let p := ProductSerializer.update instance d in
              let st' := with_products (<[pk := p]> (products st)) st in
              (st', Response (serializer_data message st' pk p) HTTP_200_OK)
          end
    end).

Definition update : DB -> Request.t -> Z -> DB * result :=
  update_with update_action false "Product updated successfully!".

Definition partial_update : DB -> Request.t -> Z -> DB * result :=
  update_with partial_update_action true "Product partially updated!".

(** [perform_destroy]: the rows that point to the product go with it
    ([on_delete=CASCADE]). *)
Definition perform_destroy (st : DB) (pk : Z) : DB :=
  mkDB (users st) (tokens st)
       (delete pk (products st))
       (filter (fun kv => Order.product kv.2 <> pk) (orders st))
       (filter (fun kv => Review.product kv.2 <> pk) (reviews st))
       (filter (fun kv => Rate.product kv.2 <> pk) (ratings st)).

Definition destroy (st : DB) (request : Request.t) (pk : Z) : DB * result :=
  authenticated destroy_action st request (fun u =>
    match get_object st request pk with
    | inl e => (st, Raised e)
    | inr instance =>
        if negb (Product.user instance =? u)
        then (st, Raised (PermissionDenied
                            "You do not have permission to delete this product(s)"))
        else (perform_destroy st pk,
              Response (Message "Product(s) deleted successfully!")
                       HTTP_204_NO_CONTENT)
    end).

End Views.
End ProductViewSet.

(** ** [products/views.py]: ReviewViewSet *)

Module ReviewViewSet.
Section Views.
Context {framework : Framework}.

Definition queryset : QuerySet Review.t := reviews.

Definition get_object (st : DB) (pk : Z) : exception + Review.t :=
  get_object_or_404 (Some queryset) st pk (fun _ => true).

Definition update_with (a : action) (partial : bool) (message : string)
    (st : DB) (request : Request.t) (pk : Z) : DB * result :=
  authenticated a st request (fun u =>
    match get_object st pk with
    | inl e => (st, Raised e)
    | inr instance =>
        if negb (Review.user instance =? u)
        then (st, Raised (PermissionDenied
                            "You do not have permission to edit this review."))
        else
          match ReviewSerializer.to_internal_value partial st
                  (Request.data request) with
          | inl e => (st, Raised e)
          | inr d =>
              let r := ReviewSerializer.update instance d in
              (with_reviews (<[pk := r]> (reviews st)) st,
               Response (ReviewData message r) HTTP_200_OK)
          end
    end).

Definition update : DB -> Request.t -> Z -> DB * result :=
  update_with update_action false "Review updated successfully!".

Definition partial_update : DB -> Request.t -> Z -> DB * result :=
  update_with partial_update_action true "Review partially updated!".

Definition destroy (st : DB) (request : Request.t) (pk : Z) : DB * result :=
  authenticated destroy_action st request (fun u =>
    match get_object st pk with
    | inl e => (st, Raised e)
    | inr instance =>
        if negb (Review.user instance =? u)
        then (st, Raised (PermissionDenied
                            "You do not have permission to delete this review."))
        else (with_reviews (delete pk (reviews st)) st,
              Response (Message "Review deleted successfully!")
                       HTTP_204_NO_CONTENT)
    end).

End Views.
End ReviewViewSet.

(** ** [users/serializers.py]: LoginSerializer *)

Module LoginSerializer.
Section Serializer.
Context {framework : Framework}.

(** [authenticate(username=..., password=...)] with the model backend: the
    user of that name, when the password checks and the account is
    active. *)
Definition authenticate (st : DB) (username password : string) : option Z :=
  match map_to_list
          (filter (fun kv => CustomUser.username kv.2 = username) (users st)) with
  | [(pk, user)] =>
      if check_password password (CustomUser.password user)
         && CustomUser.is_active user
      then Some pk else None
  | _ => None
  end.

Record credentials : Type := mk { username : option string; password : option string }.

(** The two [CharField]s, then [validate]: the result is the authenticated
    user, kept as [data['user']]. *)
Definition validate (st : DB) (data : credentials) : exception + Z :=
  match username data, password data with
  | Some username, Some password =>
      match authenticate st username password with
      | None => inl (ValidationError [("message", "Invalid username or password")])
      | Some user => inr user
      end
  | _, _ => inl (ValidationError [("message", "Invalid username or password")])
  end.

Definition run_validation (st : DB) (data : gmap string pyval) : exception + Z :=
  match is_valid
          (gather "password"
             (field_value (Field.mk true (fun _ => CharField None))
                          false st data "password")
             (fun v d => mk (username d) (Some v))
          (gather "username"
             (field_value (Field.mk true (fun _ => CharField None))
                          false st data "username")
             (fun v d => mk (Some v) (password d))
          (Gathered [] (mk None None)))) with
  | inl e => inl e
  | inr d => validate st d
  end.

(** [Token.objects.get_or_create(user=user)]: the token of the user if
    there is one, else a new row whose key is [generate_key], the random
    key drawn for it; the key is the primary key of the table. *)
Definition Token_get_or_create (generate_key : string) (st : DB) (user : Z)
    : exception + DB * string :=
  match tokens st !! user with
  | Some key => inr (st, key)
  | None =>
      if bool_decide (map_Exists (fun _ key => key = generate_key) (tokens st))
      then inl IntegrityError
      else inr (with_tokens (<[user := generate_key]> (tokens st)) st, generate_key)
  end.

Definition to_representation (generate_key : string) (st : DB) (user : Z)
    : exception + DB * payload :=
  match Token_get_or_create generate_key st user with
  | inl e => inl e
  | inr (st', key) => inr (st', TokenData "Login successful" key)
  end.

End Serializer.
End LoginSerializer.

(** ** [users/views.py] *)

Module UsersViews.
Section Views.
Context {framework : Framework}.

(** [login]: [generate_key] is the key the token would get if one has to
    be made. *)
Definition login (generate_key : string) (st : DB) (request : Request.t)
    : DB * result :=
  match LoginSerializer.run_validation st (Request.data request) with
  | inl (ValidationError errors) => (st, Response (Errors errors) HTTP_400_BAD_REQUEST)
  | inl e => (st, Raised e)
  | inr user =>
      match LoginSerializer.to_representation generate_key st user with
      | inl e => (st, Raised e)
      | inr (st', body) => (st', Response body HTTP_200_OK)
      end
  end.

(** [LogoutAPIView.post]: [request.user.auth_token.delete()]. *)
Definition logout (st : DB) (request : Request.t) : DB * result :=
  match Request.user request with
  | None => (st, Raised NotAuthenticated)
  | Some u =>
      match tokens st !! u with
      | Some _ =>
          (with_tokens (delete u (tokens st)) st,
           Response (Message "You have successfully logged out") HTTP_200_OK)
      | None =>
          (st, Response (Errors [("error", "Token does not exist")])
                        HTTP_400_BAD_REQUEST)
      end
  end.

(** What happens between two logins. *)
Inductive event : Type :=
| Login (generate_key : string) (request : Request.t)
| Logout (request : Request.t).

Definition step (st : DB) (ev : event) : DB :=
  match ev with
  | Login generate_key request => (login generate_key st request).1
  | Logout request => (logout st request).1
  end.

Definition run (st : DB) (evs : list event) : DB := fold_left step evs st.

(** The event revokes the token of user [u]. *)
Definition revokes (u : Z) (ev : event) : Prop :=
  match ev with
  | Logout request => Request.user request = Some u
  | Login _ _ => False
  end.

End Views.
End UsersViews.

(** ** Invariants, outcomes and an example store

    The vocabulary of the properties below, and the data of the worked
    examples. *)

Section Vocabulary.
Import OrderViewSet.

(** The store invariant of [PositiveIntegerField stock_quantity]. *)
Definition stock_nonneg (st : DB) : Prop :=
  map_Forall (fun _ p => 0 <= Product.stock_quantity p) (products st).

(** How [create_order] ends for an authenticated caller, case by case. *)
Inductive create_order_spec (st : DB) (u pk : Z) (request : Request.t)
  : DB * result -> Prop :=
| co_not_found :
    products st !! pk = None ->
    create_order_spec st u pk request (st, NotFound)
| co_rejected (p : Product.t) (r : result) :
    products st !! pk = Some p ->
    r <> Created -> r <> AlreadyExists ->
    create_order_spec st u pk request (st, r)
| co_saved (p : Product.t) (v : pyval) (q : Z) (st' : DB) (r : result) :
    products st !! pk = Some p ->
    default PyNone (Request.data request !! "quantity") = v ->
    truthy v = true ->
    Py.int v = Ret q ->
    q <= Product.stock_quantity p ->
    products st' =
      <[pk := Product.with_stock_quantity (Product.stock_quantity p - q) p]>
        (products st) ->
    (r = Created /\ size (matching u pk st) = 0%nat /\
       orders st' = <[next_pk (orders st) := Order.mk pk q u]> (orders st))
    \/ (r = AlreadyExists /\ size (matching u pk st) = 1%nat /\
          orders st' = orders st)
    \/ ((exists e, r = Raised e) /\ size (matching u pk st) <> 1%nat /\
          orders st' = orders st) ->
    create_order_spec st u pk request (st', r).

(** A store with one product, pk 1, five in stock, owned by user 7; users
    2, 3 and 7 exist. *)
Definition a_user (n : string) : CustomUser.t :=
  CustomUser.mk n (n ++ "@example.org") "ZA" None "secret" true.

Definition shop : DB :=
  mkDB {[ 2 := a_user "ann"; 3 := a_user "bob"; 7 := a_user "cat" ]} ∅
       {[ 1 := Product.mk "shirt" 1000 "" None 5 0 "t-shirts" 7 ]} ∅ ∅ ∅.

Definition order_request (u : Z) (quantity : pyval) : Request.t :=
  Request.mk (Some u) {[ "quantity" := quantity ]} ∅.

(** The rule that a pair (user, product) has at most one Order row. *)
Definition one_order_per_pair (st : DB) : Prop :=
  forall u p : Z, (size (matching u p st) <= 1)%nat.

(** A plain reading of the field classes, for the examples: text fields
    take text within their length, a decimal is given in hundredths, a
    choice must be one of the choices. *)
Definition plain_CharField (max_length : option nat) (v : pyval)
    : Field.result string :=
  match v with
  | PyStr s =>
      match max_length with
      | Some n =>
          if (n <? String.length s)%nat then Field.Invalid "max_length"
          else Field.Valid s
      | None => Field.Valid s
      end
  | _ => Field.Invalid "invalid"
  end.

Definition plain_fields : Framework := {|
  CharField := plain_CharField;
  DecimalField := fun _ _ v =>
    match v with PyInt z => Field.Valid z | _ => Field.Invalid "invalid" end;
  ImageField := plain_CharField None;
  ChoiceField := fun choices v =>
    match v with
    | PyStr s =>
        if existsb (String.eqb s) choices then Field.Valid s
        else Field.Invalid "invalid_choice"
    | _ => Field.Invalid "invalid_choice"
    end;
  DateTimeField := fun v =>
    match v with PyInt z => Field.Valid z | _ => Field.Invalid "invalid" end;
  Decimal := fun s => inject_Z <$> int_of_str s;
  check_password := String.eqb |}.

Definition LoginSuccessful (token : string) : result :=
  Response (TokenData "Login successful" token) HTTP_200_OK.

Definition shop_with_order : DB := with_orders {[ 1 := Order.mk 1 3 2 ]} shop.

Definition shop_with_review : DB :=
  with_reviews {[ 1 := Review.mk 1 3 (Some "fine") 0 ]} shop.

Definition ann_logs_in : Request.t :=
  Request.mk None {[ "username" := PyStr "ann"; "password" := PyStr "secret" ]} ∅.

Definition bob_logs_in : Request.t :=
  Request.mk None {[ "username" := PyStr "bob"; "password" := PyStr "secret" ]} ∅.

Definition new_product (extra : list (string * pyval)) : gmap string pyval :=
  list_to_map
    (extra ++ [ ("name", PyStr "cap"); ("price", PyInt 1250);
                ("description", PyStr "a cap"); ("category", PyStr "socks");
                ("stock_quantity", PyInt 4) ]).

(** A body for the inherited [create] action of the order viewset. *)
Definition raw_order : Request.t :=
  Request.mk (Some 2)
    {[ "product" := PyInt 1; "quantity" := PyInt 1; "user" := PyInt 2 ]} ∅.

(** The example store with one order, pk 1, of user 3. *)
Definition shop_with_order_of_3 : DB :=
  with_orders {[ 1 := Order.mk 1 2 3 ]} shop.

Definition bare_request (u : Z) : Request.t := Request.mk (Some u) ∅ ∅.

Definition rename_request : Request.t :=
  Request.mk (Some 2) {[ "name" := PyStr "mine" ]} ∅.

Definition after_first_login : DB :=
  (UsersViews.login (framework := plain_fields) "k1" shop ann_logs_in).1.

Definition between_logins : list UsersViews.event :=
  [ UsersViews.Login "k2" bob_logs_in;
    UsersViews.Login "k3" ann_logs_in;
    UsersViews.Logout (bare_request 3) ].

End Vocabulary.

(** ** [products/serializers.py]: RateSerializer *)

Definition with_ratings (r : gmap Z Rate.t) (st : DB) : DB :=
  mkDB (users st) (tokens st) (products st) (orders st) (reviews st) r.

Definition with_users (u : gmap Z CustomUser.t) (st : DB) : DB :=
  mkDB u (tokens st) (products st) (orders st) (reviews st) (ratings st).

(** The answer of a view whose body is a serialized row. *)
Inductive reply (D : Type) : Type :=
| Reply (data : D) (status : Z)
| Failed (e : exception).
Arguments Reply {D} data status.
Arguments Failed {D} e.

(** The range of an [IntegerField] column (SQLite, the default backend). *)
Definition integer_min : Z := -9223372036854775808.

Module RateSerializer.

Definition Meta_fields : list string := ["user"; "product"; "rating"].

Definition validate_rating (value : Z) : Field.result Z :=
  if negb ((0 <=? value) && (value <=? 5))
  then Field.Invalid "Rating must be between 0 to 5"
  else Field.Valid value.

Record validated : Type := mk {
  user : option Z;
  product : option Z;
  rating : option Z }.

Definition to_internal_value (partial : bool) (st : DB)
    (data : gmap string pyval) : exception + validated :=
  is_valid
    (gather "rating"
       (validate_method validate_rating
          (field_value (IntegerField false integer_min positive_integer_max)
                       partial st data "rating"))
       (fun v d => mk (user d) (product d) (Some v))
    (gather "product"
       (field_value (PrimaryKeyRelatedField products) partial st data "product")
       (fun v d => mk (user d) (Some v) (rating d))
    (gather "user"
       (field_value (PrimaryKeyRelatedField users) partial st data "user")
       (fun v d => mk (Some v) (product d) (rating d))
    (Gathered [] (mk None None None))))).

(** [ModelSerializer.create]; [rating] has the default of the model. *)
Definition create (d : validated) : option Rate.t :=
  match user d, product d with
  | Some u, Some p => Some (Rate.mk u p (default 0 (rating d)))
  | _, _ => None
  end.

Definition update (instance : Rate.t) (d : validated) : Rate.t :=
  Rate.mk (default (Rate.user instance) (user d))
          (default (Rate.product instance) (product d))
          (default (Rate.rating instance) (rating d)).

End RateSerializer.

(** ** [products/views.py]: RateViewset

    The class gives [queryset], [serializer_class] and [get_permissions];
    its actions are those of [ModelViewSet]. *)

Module RateViewset.

Definition queryset : QuerySet Rate.t := ratings.

Definition get_object (st : DB) (pk : Z) : exception + Rate.t :=
  get_object_or_404 (Some queryset) st pk (fun _ => true).

Definition authenticated_reply (a : action) (st : DB) (request : Request.t)
    (handler : Z -> DB * reply (option Rate.t)) : DB * reply (option Rate.t) :=
  match check_permissions (get_permissions a) request, Request.user request with
  | true, Some u => handler u
  | _, _ => (st, Failed NotAuthenticated)
  end.

Definition retrieve (st : DB) (pk : Z) : DB * reply (option Rate.t) :=
  match get_object st pk with
  | inl e => (st, Failed e)
  | inr instance => (st, Reply (Some instance) HTTP_200_OK)
  end.

Definition create (st : DB) (request : Request.t) : DB * reply (option Rate.t) :=
  authenticated_reply create_action st request (fun _ =>
    match RateSerializer.to_internal_value false st (Request.data request) with
    | inl e => (st, Failed e)
    | inr d =>
        match RateSerializer.create d with
        | None => (st, Failed IntegrityError)
        | Some r =>
            (with_ratings (<[next_pk (ratings st) := r]> (ratings st)) st,
             Reply (Some r) HTTP_201_CREATED)
        end
    end).

Definition update_with (a : action) (partial : bool)
    (st : DB) (request : Request.t) (pk : Z) : DB * reply (option Rate.t) :=
  authenticated_reply a st request (fun _ =>
    match get_object st pk with
    | inl e => (st, Failed e)
    | inr instance =>
        match RateSerializer.to_internal_value partial st (Request.data request) with
        | inl e => (st, Failed e)
        | inr d =>
            let r := RateSerializer.update instance d in
            (with_ratings (<[pk := r]> (ratings st)) st, Reply (Some r) HTTP_200_OK)
        end
    end).

Definition update : DB -> Request.t -> Z -> DB * reply (option Rate.t) :=
  update_with update_action false.

Definition partial_update : DB -> Request.t -> Z -> DB * reply (option Rate.t) :=
  update_with partial_update_action true.

Definition destroy (st : DB) (request : Request.t) (pk : Z)
    : DB * reply (option Rate.t) :=
  authenticated_reply destroy_action st request (fun _ =>
    match get_object st pk with
    | inl e => (st, Failed e)
    | inr _ =>
        (with_ratings (delete pk (ratings st)) st, Reply None HTTP_204_NO_CONTENT)
    end).

(** A request to the rating endpoints that writes. *)
Inductive call : Type :=
| Create (request : Request.t)
| Update (request : Request.t) (pk : Z)
| PartialUpdate (request : Request.t) (pk : Z)
| Destroy (request : Request.t) (pk : Z).

Definition serve (st : DB) (c : call) : DB :=
  match c with
  | Create request => (create st request).1
  | Update request pk => (update st request pk).1
  | PartialUpdate request pk => (partial_update st request pk).1
  | Destroy request pk => (destroy st request pk).1
  end.

End RateViewset.

(** ** [users/models.py], [users/serializers.py], [users/views.py]: accounts *)

(** What the account code takes from the framework: the e-mail field, the
    password hasher ([None] gives an unusable password), the normalisation
    of an address, and the text of an exception. *)
Class Accounts : Type := {
  EmailField : option nat -> pyval -> Field.result string;
  make_password : option string -> string;
  normalize_email : string -> string;
  str : exception -> string }.

Definition HTTP_500_INTERNAL_SERVER_ERROR : Z := 500.

(** [UniqueValidator]: a row other than [instance] has this value. *)
Definition taken (proj : CustomUser.t -> string) (instance : option Z)
    (st : DB) (value : string) : bool :=
  bool_decide
    (map_Exists (fun k row => proj row = value /\ Some k <> instance) (users st)).

Definition unique (proj : CustomUser.t -> string) (instance : option Z)
    (st : DB) (r : Field.result string) : Field.result string :=
  match r with
  | Field.Valid value =>
      if taken proj instance st value then Field.Invalid "unique"
      else Field.Valid value
  | _ => r
  end.

Module CustomUserManager.
Section Manager.
Context {accounts : Accounts}.

(** [create_user(username, email, password=None, **extra_fields)]: the
    [ValueError] of a missing e-mail, else the new row, saved; the columns
    [username] and [email] are unique. *)
Definition create_user (st : DB) (username email : string)
    (password : option string) (country : string)
    (profile_picture : option string) : exception + DB * Z :=
  if negb (truthy (PyStr email)) then inl (Builtin ValueError)
  else
    let email := normalize_email email in
    let user :=
      CustomUser.mk username email country profile_picture
                    (make_password password) true in
    if taken CustomUser.username None st username
       || taken CustomUser.email None st email
    then inl IntegrityError
    else
      let pk := next_pk (users st) in
      inr (with_users (<[pk := user]> (users st)) st, pk).

End Manager.
End CustomUserManager.

Module RegisterSerializer.
Section Serializer.
Context {framework : Framework} {accounts : Accounts}.

Definition Meta_fields : list string :=
  ["username"; "email"; "country"; "profile_picture"; "password"; "password_2"].

Record validated : Type := mk {
  username : option string;
  email : option string;
  country : option string;
  profile_picture : option (option string);
  password : option string;
  password_2 : option string }.

Definition to_internal_value (st : DB) (data : gmap string pyval)
    : exception + validated :=
  is_valid
    (gather "password_2"
       (field_value (Field.mk true (fun _ => CharField None)) false st data "password_2")
       (fun v d => mk (username d) (email d) (country d) (profile_picture d)
                      (password d) (Some v))
    (gather "password"
       (field_value (Field.mk true (fun _ => CharField None)) false st data "password")
       (fun v d => mk (username d) (email d) (country d) (profile_picture d)
                      (Some v) (password_2 d))
    (gather "profile_picture"
       (field_value (Field.mk false (fun _ => allow_null ImageField))
                    false st data "profile_picture")
       (fun v d => mk (username d) (email d) (country d) (Some v)
                      (password d) (password_2 d))
    (gather "country"
       (field_value (Field.mk true (fun _ => CharField (Some 100%nat)))
                    false st data "country")
       (fun v d => mk (username d) (email d) (Some v) (profile_picture d)
                      (password d) (password_2 d))
    (gather "email"
       (field_value
          (Field.mk true (fun st v =>
             unique CustomUser.email None st (EmailField (Some 200%nat) v)))
          false st data "email")
       (fun v d => mk (username d) (Some v) (country d) (profile_picture d)
                      (password d) (password_2 d))
    (gather "username"
       (field_value
          (Field.mk true (fun st v =>
             unique CustomUser.username None st (CharField (Some 100%nat) v)))
          false st data "username")
       (fun v d => mk (Some v) (email d) (country d) (profile_picture d)
                      (password d) (password_2 d))
    (Gathered [] (mk None None None None None None)))))))).

(** [validate]: the two passwords must be the same. *)
Definition validate (data : validated) : exception + validated :=
  if negb (bool_decide (password data = password_2 data))
  then inl (ValidationError [("non_field_errors", "Passwords must match.")])
  else inr data.

Definition run_validation (st : DB) (data : gmap string pyval)
    : exception + validated :=
  match to_internal_value st data with
  | inl e => inl e
  | inr d => validate d
  end.

(** [create]: [password_2] and [password] are taken out, the manager
    creates the user, then the password is set and the user saved again. *)
Definition create (st : DB) (validated_data : validated)
    : exception + DB * Z :=
  match username validated_data, email validated_data,
        country validated_data, password validated_data with
  | Some username, Some email, Some country, Some password =>
      match CustomUserManager.create_user st username email None country
              (default None (profile_picture validated_data)) with
      | inl e => inl e
      | inr (st1, pk) =>
          match users st1 !! pk with
          | Some user =>
              let user :=
                CustomUser.mk (CustomUser.username user) (CustomUser.email user)
                  (CustomUser.country user) (CustomUser.profile_picture user)
                  (make_password (Some password)) (CustomUser.is_active user) in
              inr (with_users (<[pk := user]> (users st1)) st1, pk)
          | None => inl IntegrityError
          end
      end
  | _, _, _, _ => inl (Builtin TypeError) (* not reached: the four are required *)
  end.

End Serializer.
End RegisterSerializer.

Module AccountViews.
Section Views.
Context {framework : Framework} {accounts : Accounts}.

(** [register]: whatever is raised is caught and answered as a server
    error. *)
Definition register (st : DB) (request : Request.t) : DB * result :=
  match RegisterSerializer.run_validation st (Request.data request) with
  | inl (ValidationError errors) =>
      (st, Response (Errors errors) HTTP_400_BAD_REQUEST)
  | inl e =>
      (st, Response (Errors [("error", str e)]) HTTP_500_INTERNAL_SERVER_ERROR)
  | inr validated_data =>
      match RegisterSerializer.create st validated_data with
      | inl (Builtin ValueError) =>
          (st, Response (Errors [("error", "Please enter email")])
                        HTTP_500_INTERNAL_SERVER_ERROR)
      | inl e =>
          (st, Response (Errors [("error", str e)]) HTTP_500_INTERNAL_SERVER_ERROR)
      | inr (st', pk) =>
          (st', Response
                  (Message ("User "
                            ++ default "" (CustomUser.username <$> users st' !! pk)
                            ++ " has been created successfully"))
                  HTTP_201_CREATED)
      end
  end.

(** The rows that go with a user ([on_delete=CASCADE]): the token, the
    user's products with what points to them, and the user's own orders,
    reviews and ratings. *)
Definition product_stays (st : DB) (u : Z) (product : Z) : bool :=
  match products st !! product with
  | Some p => negb (Product.user p =? u)
  | None => true
  end.

Definition delete_user (st : DB) (u : Z) : DB :=
  mkDB (delete u (users st))
       (delete u (tokens st))
       (filter (fun kv => Product.user kv.2 <> u) (products st))
       (filter (fun kv => Order.user kv.2 <> u
                          /\ product_stays st u (Order.product kv.2) = true)
               (orders st))
       (filter (fun kv => Review.user kv.2 <> u
                          /\ product_stays st u (Review.product kv.2) = true)
               (reviews st))
       (filter (fun kv => Rate.user kv.2 <> u
                          /\ product_stays st u (Rate.product kv.2) = true)
               (ratings st)).

(** [AccountDeleteAPIView.destroy]. *)
Definition delete_account (st : DB) (request : Request.t) : DB * result :=
  match check_permissions [IsAuthenticated] request, Request.user request with
  | true, Some u =>
      (delete_user st u,
       Response (Message "Account deleted successfully") HTTP_200_OK)
  | _, _ => (st, Raised NotAuthenticated)
  end.

End Views.
End AccountViews.

(** ** Vocabulary of the further properties *)

(** A property of the data gathered so far. *)
Definition holds {A : Type} (P : A -> Prop) (acc : validation A) : Prop :=
  match acc with
  | Gathered _ d => P d
  | Crashed _ => True
  end.

(** What the [validate_<field>] methods of the product serializer let
    through, on a product and on validated data. *)
Definition product_valid (p : Product.t) : Prop :=
  Product.name p <> ""
  /\ 0 <= Product.price p <= 1000 * 100
  /\ 0 <= Product.stock_quantity p <= 100
  /\ Product.category p <> "".

Definition validated_within (d : ProductSerializer.validated) : Prop :=
  (forall n, ProductSerializer.name d = Some n -> n <> "")
  /\ (forall z, ProductSerializer.price d = Some z -> 0 <= z <= 1000 * 100)
  /\ (forall z, ProductSerializer.stock_quantity d = Some z -> 0 <= z <= 100)
  /\ (forall c, ProductSerializer.category d = Some c -> c <> "")
  /\ ProductSerializer.created_date d = None
  /\ ProductSerializer.user d = None.

(** Every stored rating is within the bounds of [validate_rating]. *)
Definition ratings_within (st : DB) : Prop :=
  map_Forall (fun _ r => 0 <= Rate.rating r <= 5) (ratings st).

(** No two accounts share a user name or an address. *)
Definition unique_accounts (st : DB) : Prop :=
  forall (k1 k2 : Z) (u1 u2 : CustomUser.t),
    users st !! k1 = Some u1 -> users st !! k2 = Some u2 ->
    CustomUser.username u1 = CustomUser.username u2
    \/ CustomUser.email u1 = CustomUser.email u2 ->
    k1 = k2.

(** No two users hold the same token key. *)
Definition token_keys_distinct (st : DB) : Prop :=
  forall (u1 u2 : Z) (key : string),
    tokens st !! u1 = Some key -> tokens st !! u2 = Some key -> u1 = u2.

(** Every foreign key points to a row that is there. *)
Definition references_kept (st : DB) : Prop :=
  map_Forall (fun u _ => is_Some (users st !! u)) (tokens st)
  /\ map_Forall (fun _ p => is_Some (users st !! Product.user p)) (products st)
  /\ map_Forall (fun _ o => is_Some (users st !! Order.user o)
                            /\ is_Some (products st !! Order.product o))
                (orders st)
  /\ map_Forall (fun _ r => is_Some (users st !! Review.user r)
                            /\ is_Some (products st !! Review.product r))
                (reviews st)
  /\ map_Forall (fun _ r => is_Some (users st !! Rate.user r)
                            /\ is_Some (products st !! Rate.product r))
                (ratings st).

(** ** [users/serializers.py], [users/views.py]: the profile *)

Module ProfileAPIView.
Section Views.
Context {framework : Framework}.

(** [UserProfileSerializer]: [fields = ['username', 'profile_picture']]. *)
Record validated : Type := mk {
  username : option string;
  profile_picture : option (option string) }.

Definition to_internal_value (partial : bool) (st : DB) (instance : Z)
    (data : gmap string pyval) : exception + validated :=
  is_valid
    (gather "profile_picture"
       (field_value (Field.mk false (fun _ => allow_null ImageField))
                    partial st data "profile_picture")
       (fun v d => mk (username d) (Some v))
    (gather "username"
       (field_value
          (Field.mk true (fun st v =>
             unique CustomUser.username (Some instance) st
                    (CharField (Some 100%nat) v)))
          partial st data "username")
       (fun v d => mk (Some v) (profile_picture d))
    (Gathered [] (mk None None)))).

Definition serializer_update (instance : CustomUser.t) (d : validated)
    : CustomUser.t :=
  CustomUser.mk (default (CustomUser.username instance) (username d))
                (CustomUser.email instance) (CustomUser.country instance)
                (default (CustomUser.profile_picture instance) (profile_picture d))
                (CustomUser.password instance) (CustomUser.is_active instance).

(** [get_object] is [request.user]; [perform_update] saves the serializer
    (the response it builds is dropped by the caller, which answers with the
    serialized profile). *)
Definition update_with (partial : bool) (st : DB) (request : Request.t)
    : DB * reply (string * option string) :=
  match check_permissions [IsAuthenticated] request, Request.user request with
  | true, Some u =>
      match users st !! u with
      | None => (st, Failed Http404)
      | Some instance =>
          match to_internal_value partial st u (Request.data request) with
          | inl e => (st, Failed e)
          | inr d =>
              let user := serializer_update instance d in
              (with_users (<[u := user]> (users st)) st,
               Reply (CustomUser.username user, CustomUser.profile_picture user)
                     HTTP_200_OK)
          end
      end
  | _, _ => (st, Failed NotAuthenticated)
  end.

Definition update : DB -> Request.t -> DB * reply (string * option string) :=
  update_with false.

Definition partial_update : DB -> Request.t -> DB * reply (string * option string) :=
  update_with true.

End Views.
End ProfileAPIView.

(** ** Data of the further examples *)

(** A plain reading of what the account code takes from the framework: the
    hash of a password is the password, an address is kept as it is. *)
Definition plain_accounts : Accounts := {|
  EmailField := plain_CharField;
  make_password := fun raw => default "!" raw;
  normalize_email := fun address => address;
  str := fun _ => "error" |}.

Definition shirt : Product.t := Product.mk "shirt" 1000 "" None 5 0 "t-shirts" 7.

Definition anonymous_request : Request.t := Request.mk None ∅ ∅.

Definition order_for_2_by_3 : Request.t :=
  Request.mk (Some 3)
    {[ "product" := PyInt 1; "quantity" := PyInt 4; "user" := PyInt 2 ]} ∅.

Definition owner_renames : Request.t :=
  Request.mk (Some 7) {[ "name" := PyStr "vest" ]} ∅.

Definition owner_gives_away : Request.t :=
  Request.mk (Some 7) {[ "user" := PyInt 2 ]} ∅.

Definition author_rewrites : Request.t :=
  Request.mk (Some 3) {[ "product" := PyInt 1; "review" := PyStr "better" ]} ∅.

Definition rated : DB :=
  with_ratings {[ 1 := Rate.mk 2 1 4; 2 := Rate.mk 3 1 5 ]} shop.

Definition rating_calls : list RateViewset.call :=
  [ RateViewset.Create
      (Request.mk (Some 2)
         {[ "user" := PyInt 2; "product" := PyInt 1; "rating" := PyInt 3 ]} ∅);
    RateViewset.PartialUpdate
      (Request.mk (Some 7) {[ "rating" := PyInt 9 ]} ∅) 1;
    RateViewset.Destroy (bare_request 3) 2 ].

Definition lower_rating : Request.t :=
  Request.mk (Some 7) {[ "rating" := PyInt 0 ]} ∅.

Definition dan_registers (password_2 : string) : Request.t :=
  Request.mk None
    {[ "username" := PyStr "dan"; "email" := PyStr "dan@example.org";
       "country" := PyStr "ZA"; "password" := PyStr "pw";
       "password_2" := PyStr password_2 ]} ∅.

Definition dan_validated (password_2 : string) : RegisterSerializer.validated :=
  RegisterSerializer.mk (Some "dan") (Some "dan@example.org") (Some "ZA") None
                        (Some "pw") (Some password_2).

Definition dan_logs_in : Request.t :=
  Request.mk None {[ "username" := PyStr "dan"; "password" := PyStr "pw" ]} ∅.

Definition ann_mistypes : Request.t :=
  Request.mk None {[ "username" := PyStr "ann"; "password" := PyStr "secrte" ]} ∅.

Definition ann_renames : Request.t :=
  Request.mk (Some 2) {[ "username" := PyStr "anna" ]} ∅.


(** ** Vocabulary and data of the order, quantity and rating properties *)

(** The value is not a text with a character outside ASCII (the part of
    [int] that this model covers). *)
Definition ascii_text (v : pyval) : bool :=
  match v with
  | PyStr s => forallb (fun c => (N_of_ascii c <? 128)%N) (list_ascii_of_string s)
  | _ => true
  end.

(** The example store after two requests to the inherited [create] action,
    both for user 2 and product 1. *)
Definition shop_with_two_orders : DB :=
  (OrderViewSet.create (OrderViewSet.create shop raw_order).1 raw_order).1.


(** ** [products/views.py]: the [create] action of the review viewset

    The class overrides neither [create] nor [perform_create]: the
    serializer is saved with what it validated. The serializer has no
    [user] field, so the row is inserted without a user, which the column,
    not nullable, refuses. *)
Definition ReviewViewSet_create {framework : Framework}
    (st : DB) (request : Request.t) : DB * result :=
  authenticated create_action st request (fun _ =>
    match ReviewSerializer.to_internal_value false st (Request.data request) with
    | inl e => (st, Raised e)
    | inr _ => (st, Raised IntegrityError)
    end).

(** * Properties *)

(** ** Python's [int] on text *)

Example int_of_str_plain : int_of_str " 42 " = Some 42.
Proof. reflexivity. Qed.

Example int_of_str_neg : int_of_str "-3" = Some (-3).
Proof. reflexivity. Qed.

Example int_of_str_underscore : int_of_str "1_000" = Some 1000.
Proof. reflexivity. Qed.

Example int_of_str_bad :
  int_of_str "abc" = None /\ int_of_str "" = None /\ int_of_str "1__0" = None
  /\ int_of_str "- 1" = None /\ int_of_str "2.5" = None /\ int_of_str "_1" = None.
Proof. repeat split; reflexivity. Qed.

Example int_float : Py.int (PyFloat (S754_finite false 5 (-1))) = Ret 2.
Proof. reflexivity. Qed.

(** A value that converts to a non-zero integer is not falsy. *)
Lemma int_nonzero_truthy (v : pyval) (q : Z) :
  Py.int v = Ret q -> q <> 0 -> truthy v = true.
Proof.
  intros Hint Hq. destruct v as [ | b | z | f | s | l | d ]; simpl in *;
    try discriminate.
  - destruct b; [reflexivity | congruence].
  - injection Hint as ->. apply negb_true_iff, Z.eqb_neq, Hq.
  - destruct f; try reflexivity. congruence.
  - destruct s; [ discriminate | reflexivity ].
Qed.

(** ** Primary keys *)

Lemma next_pk_above {A : Type} (table : gmap Z A) (k : Z) (row : A) :
  table !! k = Some row -> k < next_pk table.
Proof.
  unfold next_pk. revert k row.
  apply (map_fold_weak_ind
           (fun acc (m : gmap Z A) =>
              forall k row, m !! k = Some row -> k < 1 + acc)).
  - intros k row Hk. by rewrite lookup_empty in Hk.
  - intros i x m r _ IH k row Hk.
    destruct (decide (i = k)) as [-> | Hne].
    + lia.
    + rewrite lookup_insert_ne in Hk by done. specialize (IH k row Hk). lia.
Qed.

(** The key of a new row is in use by no row. *)
Lemma next_pk_fresh {A : Type} (table : gmap Z A) :
  table !! next_pk table = None.
Proof.
  destruct (table !! next_pk table) as [row | ] eqn:Hk; [ | done ].
  apply next_pk_above in Hk. lia.
Qed.

(** ** The order workflow *)

Section OrderWorkflow.
Import OrderViewSet.

Lemma initial_authenticated (st : DB) (request : Request.t)
    (action : Z -> DB * result) (u : Z) :
  Request.user request = Some u -> initial st request action = action u.
Proof.
  intros Hu. unfold initial, check_permissions; simpl. by rewrite Hu.
Qed.

Lemma initial_anonymous (st : DB) (request : Request.t)
    (action : Z -> DB * result) :
  Request.user request = None ->
  initial st request action = (st, Raised NotAuthenticated).
Proof.
  intros Hu. unfold initial. rewrite Hu. by destruct (check_permissions _ _).
Qed.

Lemma create_order_cases (st : DB) (request : Request.t) (u pk : Z) :
  Request.user request = Some u ->
  create_order_spec st u pk request (create_order st request pk).
Proof.
  intros Hu. unfold create_order. rewrite (initial_authenticated _ _ _ _ Hu).
  unfold get_object_or_404.
  destruct (products st !! pk) as [p | ] eqn:Hp; [ | by apply co_not_found ].
  set (v := default PyNone (Request.data request !! "quantity")).
  destruct (truthy v) eqn:Hv; simpl; [ | by eapply co_rejected ].
  destruct (Py.int v) as [q | e] eqn:Hint.
  2:{ destruct e; by eapply co_rejected. }
  destruct (Product.stock_quantity p <? q) eqn:Hlt;
    [ by eapply co_rejected | ].
  apply Z.ltb_ge in Hlt.
  set (st1 := save_product st pk _).
  assert (matching u pk st1 = matching u pk st) as Hm by reflexivity.
  unfold get_or_create, Order_objects_create. rewrite Hm.
  destruct (size (matching u pk st)) as [ | [ | n ] ] eqn:Hsize; simpl.
  - destruct (q <? 0) eqn:Hq.
    + eapply co_saved; eauto. right; right.
      split; [by eexists | split; [by rewrite Hsize | done]].
    + eapply co_saved; eauto.
  - eapply co_saved; eauto.
  - eapply co_saved; eauto. right; right.
    split; [by eexists | split; [by rewrite Hsize | done]].
Qed.

Lemma create_order_anonymous (st : DB) (request : Request.t) (pk : Z) :
  Request.user request = None ->
  create_order st request pk = (st, Raised NotAuthenticated).
Proof.
  intros Hu. by apply initial_anonymous.
Qed.

Lemma create_order_stock_nonneg (st : DB) (request : Request.t) (pk : Z) :
  stock_nonneg st -> stock_nonneg (create_order st request pk).1.
Proof.
  intros Hinv. destruct (Request.user request) as [u | ] eqn:Hu.
  2:{ by rewrite create_order_anonymous. }
  destruct (create_order_cases st request u pk Hu)
    as [ | | p v q st' r Hp _ _ _ Hle Hprod _ ]; simpl; try done.
  unfold stock_nonneg. rewrite Hprod.
  apply map_Forall_insert_2; [ | done ]. simpl.
  specialize (Hinv _ _ Hp). simpl in Hinv. lia.
Qed.

(** C1. After any sequence of [create_order] calls, succeeding or failing,
    every product's [stock_quantity] is an integer [>= 0], given that the
    store started that way (the column is a [PositiveIntegerField]). *)
Theorem C1_stock_quantity_never_negative (st : DB) (calls : list (Request.t * Z)) :
  stock_nonneg st ->
  forall (pk : Z) (p : Product.t),
    products (place_orders st calls) !! pk = Some p ->
    0 <= Product.stock_quantity p.
Proof.
  revert st. induction calls as [ | [request pk0] rest IH ]; intros st Hinv.
  - exact Hinv.
  - simpl. apply IH. by apply create_order_stock_nonneg.
Qed.

(** C2. An order for more than the stock (which is [>= 0], as its column
    has it) is answered [InsufficientStock] and leaves the whole store, the
    product's [stock_quantity] included, as it was. *)
Theorem C2_insufficient_stock_leaves_store (st : DB) (request : Request.t)
    (u pk : Z) (p : Product.t) (v : pyval) (q : Z) :
  Request.user request = Some u ->
  products st !! pk = Some p ->
  0 <= Product.stock_quantity p ->
  Request.data request !! "quantity" = Some v ->
  Py.int v = Ret q ->
  Product.stock_quantity p < q ->
  create_order st request pk = (st, InsufficientStock).
Proof.
  intros Hu Hp Hstock Hv Hint Hlt.
  unfold create_order. rewrite (initial_authenticated _ _ _ _ Hu).
  unfold get_object_or_404. rewrite Hp, Hv. simpl.
  rewrite (int_nonzero_truthy v q Hint) by lia. simpl. rewrite Hint.
  apply Z.ltb_lt in Hlt. by rewrite Hlt.
Qed.

Lemma matching_exactly_one (st : DB) (u pk k : Z) (o : Order.t) :
  orders st !! k = Some o ->
  Order.user o = u -> Order.product o = pk ->
  (forall (k' : Z) (o' : Order.t),
     orders st !! k' = Some o' ->
     Order.user o' = u -> Order.product o' = pk -> k' = k) ->
  size (matching u pk st) = 1%nat.
Proof.
  intros Hk Hu Hp Honly.
  assert (matching u pk st = {[ k := o ]}) as ->;
    [ | apply map_size_singleton ].
  unfold matching. apply map_eq. intros i.
  destruct (decide (i = k)) as [-> | Hne].
  - rewrite lookup_singleton_eq. by apply map_lookup_filter_Some.
  - rewrite lookup_singleton_ne by done.
    apply map_lookup_filter_None. right. intros o' Hi [Hu' Hp'].
    by apply Hne, (Honly i o').
Qed.

(** C3, as stated, fails: a pair can have two Order rows, stored by two
    requests to the inherited [create] action; then a [create_order] of the
    pair with enough stock is not answered [AlreadyExists] but ends in the
    [MultipleObjectsReturned] of [get_or_create]. *)
Lemma C3_two_rows_is_a_server_error :
  orders shop_with_two_orders !! 1 = Some (Order.mk 1 1 2)
  /\ orders shop_with_two_orders !! 2 = Some (Order.mk 1 1 2)
  /\ Product.stock_quantity <$> products shop_with_two_orders !! 1 = Some 5
  /\ (create_order shop_with_two_orders (order_request 2 (PyInt 1)) 1).2
     = Raised MultipleObjectsReturned.
Proof. vm_compute. repeat split. Qed.

(** C3, amended. When the pair (user, product) has exactly one Order row,
    a further [create_order] of the pair with a positive quantity within
    the stock answers [AlreadyExists], leaves the Order table as it is, and
    still takes the quantity off the product's [stock_quantity]. *)
Theorem C3_repeat_order_consumes_stock (st : DB) (request : Request.t)
    (u pk : Z) (p : Product.t) (v : pyval) (q : Z) (k : Z) (o : Order.t) :
  Request.user request = Some u ->
  products st !! pk = Some p ->
  orders st !! k = Some o ->
  Order.user o = u -> Order.product o = pk ->
  (forall (k' : Z) (o' : Order.t),
     orders st !! k' = Some o' ->
     Order.user o' = u -> Order.product o' = pk -> k' = k) ->
  Request.data request !! "quantity" = Some v ->
  Py.int v = Ret q ->
  0 < q <= Product.stock_quantity p ->
  (create_order st request pk).2 = AlreadyExists
  /\ orders (create_order st request pk).1 = orders st
  /\ Product.stock_quantity <$> products (create_order st request pk).1 !! pk
     = Some (Product.stock_quantity p - q).
Proof.
  intros Hu Hp Hk Hou Hop Honly Hv Hint [Hpos Hle].
  pose proof (matching_exactly_one st u pk k o Hk Hou Hop Honly) as Hone.
  unfold create_order. rewrite (initial_authenticated _ _ _ _ Hu).
  unfold get_object_or_404. rewrite Hp, Hv. simpl.
  rewrite (int_nonzero_truthy v q Hint) by lia. simpl. rewrite Hint.
  apply Z.ltb_ge in Hle. rewrite Hle.
  set (st1 := save_product st pk _).
  assert (matching u pk st1 = matching u pk st) as Hm by reflexivity.
  unfold get_or_create. rewrite Hm, Hone. simpl.
  repeat split. by rewrite lookup_insert_eq.
Qed.

(** The scenario of the specification: stock 5, user 2 orders 3 and then 1
    more of the same product. *)
Example scenario_stock_5_3_1 :
  (create_order shop (order_request 2 (PyInt 3)) 1).2 = Created
  /\ Product.stock_quantity <$>
       products (create_order shop (order_request 2 (PyInt 3)) 1).1 !! 1
     = Some 2
  /\ (create_order (create_order shop (order_request 2 (PyInt 3)) 1).1
                   (order_request 2 (PyInt 1)) 1).2 = AlreadyExists
  /\ Product.stock_quantity <$>
       products (create_order (create_order shop (order_request 2 (PyInt 3)) 1).1
                              (order_request 2 (PyInt 1)) 1).1 !! 1
     = Some 1
  /\ size (orders (create_order (create_order shop (order_request 2 (PyInt 3)) 1).1
                                (order_request 2 (PyInt 1)) 1).1) = 1%nat.
Proof. vm_compute. repeat split. Qed.

(** C4, as stated, fails: the text ["0"] is not falsy, converts to the
    integer 0, passes the stock check, and an Order of quantity 0 is
    created. *)
Lemma C4_zero_quantity_is_ordered :
  (create_order shop (order_request 2 (PyStr "0")) 1).2 = Created
  /\ orders (create_order shop (order_request 2 (PyStr "0")) 1).1 !! 1
     = Some (Order.mk 1 0 2).
Proof. vm_compute. split; reflexivity. Qed.

(** C4, amended. An absent quantity is answered "Quantity is required"; a
    quantity that is not falsy and whose conversion by [int] is a
    [ValueError] (text that is no integer literal) is answered "Invalid
    quantity value"; both leave the store as it is. No order is created
    with a negative quantity or with one above the stock: the order that a
    call answered [Created] has stored has a quantity from 0, included, to
    the stock of the product. *)
Theorem C4_quantity_present_and_integer (st : DB) (request : Request.t)
    (u pk : Z) (p : Product.t) :
  Request.user request = Some u ->
  products st !! pk = Some p ->
  (Request.data request !! "quantity" = None ->
     create_order st request pk = (st, QuantityRequired))
  /\ (forall v : pyval,
        Request.data request !! "quantity" = Some v ->
        truthy v = true -> ascii_text v = true ->
        Py.int v = Raise ValueError ->
        create_order st request pk = (st, InvalidQuantity))
  /\ ((create_order st request pk).2 = Created ->
      exists k q : Z,
        orders st !! k = None
        /\ orders (create_order st request pk).1 !! k = Some (Order.mk pk q u)
        /\ 0 <= q <= Product.stock_quantity p).
Proof.
  intros Hu Hp. split; [ | split ].
  - intros Hnone. unfold create_order.
    rewrite (initial_authenticated _ _ _ _ Hu).
    unfold get_object_or_404. by rewrite Hp, Hnone.
  - intros v Hv Htrue _ Hint. unfold create_order.
    rewrite (initial_authenticated _ _ _ _ Hu).
    unfold get_object_or_404. rewrite Hp, Hv. simpl. by rewrite Htrue, Hint.
  - unfold create_order. rewrite (initial_authenticated _ _ _ _ Hu).
    unfold get_object_or_404. rewrite Hp. simpl.
    destruct (truthy _); simpl; [ | discriminate ].
    destruct (Py.int _) as [q | [ | | ]]; simpl; try discriminate.
    destruct (_ <? q) eqn:Hle; simpl; [ discriminate | ].
    apply Z.ltb_ge in Hle.
    unfold get_or_create, Order_objects_create.
    destruct (size _) as [ | [ | n ] ]; simpl; try discriminate.
    destruct (q <? 0) eqn:Hneg; simpl; [ discriminate | ].
    apply Z.ltb_ge in Hneg. intros _.
    exists (next_pk (orders st)), q. rewrite lookup_insert_eq.
    split; [ apply next_pk_fresh | by split ].
Qed.

Lemma matching_orders (st st' : DB) (u p : Z) :
  orders st' = orders st -> matching u p st' = matching u p st.
Proof. unfold matching. by intros ->. Qed.

Lemma matching_insert_same (st st' : DB) (k u p q : Z) :
  orders st' = <[k := Order.mk p q u]> (orders st) ->
  size (matching u p st) = 0%nat ->
  size (matching u p st') = 1%nat.
Proof.
  intros Ho Hz. apply map_size_empty_iff in Hz. unfold matching in *.
  rewrite Ho, map_filter_insert_True by done. rewrite Hz.
  rewrite insert_empty. apply map_size_singleton.
Qed.

Lemma matching_insert_other (st st' : DB) (k u p u' p' q : Z) :
  orders st' = <[k := Order.mk p q u]> (orders st) ->
  (u', p') <> (u, p) ->
  (size (matching u' p' st') <= size (matching u' p' st))%nat.
Proof.
  intros Ho Hne. unfold matching. rewrite Ho.
  rewrite map_filter_insert_False by (simpl; intros [-> ->]; done).
  apply map_subseteq_size, map_filter_subseteq_mono, delete_subseteq.
Qed.

Lemma create_order_one_order_per_pair (st : DB) (request : Request.t) (pk : Z) :
  one_order_per_pair st -> one_order_per_pair (create_order st request pk).1.
Proof.
  intros Hinv. destruct (Request.user request) as [u | ] eqn:Hu.
  2:{ by rewrite create_order_anonymous. }
  destruct (create_order_cases st request u pk Hu)
    as [ | | p v q st' r _ _ _ _ _ _ Hor ]; simpl; try done.
  intros u' p'.
  destruct Hor as [(_ & Hz & Ho) | [(_ & _ & Ho) | (_ & _ & Ho)]];
    try (rewrite (matching_orders _ _ _ _ Ho); apply Hinv).
  destruct (decide ((u', p') = (u, pk))) as [[= -> ->] | Hne].
  - by rewrite (matching_insert_same st st' _ u pk q Ho Hz).
  - etrans; [ by apply (matching_insert_other st st' _ u pk u' p' q Ho)
            | apply Hinv ].
Qed.

(** C5, as stated, fails: the viewset serves the inherited [create] action,
    which stores whatever Order the body describes; two such requests leave
    two rows for the pair (user 2, product 1), and [create_order] was never
    called. *)
Lemma C5_raw_create_duplicates :
  (create shop raw_order).2
    = Response (OrderData None (Order.mk 1 1 2)) HTTP_201_CREATED
  /\ (create (create shop raw_order).1 raw_order).2
    = Response (OrderData None (Order.mk 1 1 2)) HTTP_201_CREATED
  /\ size (matching 2 1 (create (create shop raw_order).1 raw_order).1) = 2%nat.
Proof. vm_compute. repeat split. Qed.

(** C5, amended. [create_order] alone never makes a second Order row for a
    pair (user, product): along any sequence of [create_order] calls a store
    with at most one row per pair stays so, and a call for a pair that has
    its row is not answered [Created] and leaves the Order table as it
    is. *)
Theorem C5_create_order_keeps_one_per_pair (st : DB)
    (calls : list (Request.t * Z)) :
  one_order_per_pair st ->
  one_order_per_pair (place_orders st calls)
  /\ (forall (request : Request.t) (u pk : Z),
        Request.user request = Some u ->
        size (matching u pk st) = 1%nat ->
        (create_order st request pk).2 <> Created
        /\ orders (create_order st request pk).1 = orders st).
Proof.
  intros Hinv. split.
  - revert st Hinv. induction calls as [ | [request pk] rest IH ];
      intros st Hinv; [ done | ].
    simpl. by apply IH, create_order_one_order_per_pair.
  - intros request u pk Hu Hone.
    destruct (create_order_cases st request u pk Hu)
      as [ | p r _ Hn _ | p v q st' r _ _ _ _ _ _ Hor ]; simpl; try done.
    destruct Hor as [(_ & Hz & _) | [(-> & _ & ->) | ([e ->] & _ & ->)]];
      [ congruence | done | done ].
Qed.

(** C7 on the code: whoever asks, and whose ever the order is, the four
    scoped actions end in the [ValueError] of [get_object_or_404], because
    the viewset has no queryset; here user 2 asks for order 1 of user 3. *)
Lemma C7_scoped_actions_raise_ValueError :
  retrieve shop_with_order_of_3 (bare_request 2) 1
    = (shop_with_order_of_3, Raised (Builtin ValueError))
  /\ update shop_with_order_of_3 (bare_request 2) 1
    = (shop_with_order_of_3, Raised (Builtin ValueError))
  /\ partial_update shop_with_order_of_3 (bare_request 2) 1
    = (shop_with_order_of_3, Raised (Builtin ValueError))
  /\ destroy shop_with_order_of_3 (bare_request 2) 1
    = (shop_with_order_of_3, Raised (Builtin ValueError))
  /\ Raised (Builtin ValueError) <> NotFound.
Proof. repeat split. discriminate. Qed.

End OrderWorkflow.

(** ** Ownership of products and reviews *)

Section Ownership.
Context {framework : Framework}.

Lemma authenticated_user (a : action) (st : DB) (request : Request.t)
    (handler : Z -> DB * result) (u : Z) :
  Request.user request = Some u ->
  a <> list_action -> a <> retrieve_action ->
  authenticated a st request handler = handler u.
Proof.
  intros Hu Hl Hr. unfold authenticated, check_permissions.
  destruct a; try done; simpl; by rewrite Hu.
Qed.

(** C6. For an authenticated user who does not own the product or review a
    request addresses, [update], [partial_update] and [destroy] raise
    [PermissionDenied] and the store is left as it was. *)
Theorem C6_non_owner_is_denied (st : DB) (request : Request.t) (u pk : Z) :
  Request.user request = Some u ->
  (forall p : Product.t,
     ProductViewSet.get_object st request pk = inr p ->
     Product.user p <> u ->
     ProductViewSet.update st request pk
       = (st, Raised (PermissionDenied
                        "You do not have permission to edit this product(s)."))
     /\ ProductViewSet.partial_update st request pk
       = (st, Raised (PermissionDenied
                        "You do not have permission to edit this product(s)."))
     /\ ProductViewSet.destroy st request pk
       = (st, Raised (PermissionDenied
                        "You do not have permission to delete this product(s)")))
  /\ (forall r : Review.t,
        ReviewViewSet.get_object st pk = inr r ->
        Review.user r <> u ->
        ReviewViewSet.update st request pk
          = (st, Raised (PermissionDenied
                           "You do not have permission to edit this review."))
        /\ ReviewViewSet.partial_update st request pk
          = (st, Raised (PermissionDenied
                           "You do not have permission to edit this review."))
        /\ ReviewViewSet.destroy st request pk
          = (st, Raised (PermissionDenied
                           "You do not have permission to delete this review."))).
Proof.
  intros Hu. split.
  - intros p Hget Hne. apply Z.eqb_neq in Hne.
    unfold ProductViewSet.update, ProductViewSet.partial_update,
      ProductViewSet.update_with, ProductViewSet.destroy.
    rewrite !(authenticated_user _ _ _ _ _ Hu) by done.
    by rewrite Hget, Hne.
  - intros r Hget Hne. apply Z.eqb_neq in Hne.
    unfold ReviewViewSet.update, ReviewViewSet.partial_update,
      ReviewViewSet.update_with, ReviewViewSet.destroy.
    rewrite !(authenticated_user _ _ _ _ _ Hu) by done.
    by rewrite Hget, Hne.
Qed.

End Ownership.

(** ** The average rating *)

Section AverageRating.
Import ProductSerializer.

Lemma Avg_fold (values : list Z) (t c : Z) :
  fold_left (fun '(t, c) v => (t + v, c + 1)) values (t, c)
  = (t + foldr Z.add 0 values, c + Z.of_nat (length values)).
Proof.
  revert t c. induction values as [ | v values IH ]; intros t c; simpl.
  - f_equal; lia.
  - rewrite IH. f_equal; lia.
Qed.




Example average_rating_of_4_and_5 :
  let st := mkDB ∅ ∅ ∅ ∅ ∅
              {[ 1 := Rate.mk 2 1 4; 2 := Rate.mk 3 1 5; 3 := Rate.mk 3 9 0 ]} in
  (get_average_rating st 1 == 9 # 2)%Q /\ get_average_rating st 8 = 0%Q.
Proof. split; reflexivity. Qed.

End AverageRating.

(** ** Login tokens *)

Section LoginTokens.
Context {framework : Framework}.
Import UsersViews.

Lemma run_validation_users (st st' : DB) (data : gmap string pyval) :
  users st' = users st ->
  LoginSerializer.run_validation st' data = LoginSerializer.run_validation st data.
Proof.
  intros Hu. unfold LoginSerializer.run_validation, field_value. simpl.
  destruct (is_valid _) as [e | d]; [ reflexivity | ].
  unfold LoginSerializer.validate, LoginSerializer.authenticate.
  by rewrite Hu.
Qed.

Lemma login_users (generate_key : string) (st : DB) (request : Request.t) :
  users (login generate_key st request).1 = users st.
Proof.
  unfold login, LoginSerializer.to_representation,
    LoginSerializer.Token_get_or_create.
  destruct (LoginSerializer.run_validation _ _) as [e | u];
    [ by destruct e | ].
  destruct (tokens st !! u); [ done | ]. by case_bool_decide.
Qed.

(** A successful login leaves the user with the token it answered. *)
Lemma login_token (generate_key : string) (st st' : DB) (request : Request.t)
    (u : Z) (token : string) :
  LoginSerializer.run_validation st (Request.data request) = inr u ->
  login generate_key st request = (st', LoginSuccessful token) ->
  tokens st' !! u = Some token.
Proof.
  intros Hval. unfold login, LoginSerializer.to_representation,
    LoginSerializer.Token_get_or_create. rewrite Hval.
  destruct (tokens st !! u) as [key | ] eqn:Ht.
  - by intros [= <- <-].
  - case_bool_decide; [ discriminate | ].
    intros [= <- <-]. apply lookup_insert_eq.
Qed.

(** A user who has a token is answered with it, and nothing changes. *)
Lemma login_again (generate_key : string) (st : DB) (request : Request.t)
    (u : Z) (token : string) :
  LoginSerializer.run_validation st (Request.data request) = inr u ->
  tokens st !! u = Some token ->
  login generate_key st request = (st, LoginSuccessful token).
Proof.
  intros Hval Ht. unfold login, LoginSerializer.to_representation,
    LoginSerializer.Token_get_or_create. by rewrite Hval, Ht.
Qed.

Lemma step_keeps_token (st : DB) (ev : event) (u : Z) (token : string) :
  ~ revokes u ev ->
  tokens st !! u = Some token ->
  tokens (step st ev) !! u = Some token /\ users (step st ev) = users st.
Proof.
  intros Hrev Ht. destruct ev as [key request | request]; simpl.
  - split; [ | apply login_users ].
    unfold login, LoginSerializer.to_representation,
      LoginSerializer.Token_get_or_create.
    destruct (LoginSerializer.run_validation _ _) as [e | u'];
      [ by destruct e | ].
    destruct (tokens st !! u') as [key' | ] eqn:Ht'; [ done | ].
    case_bool_decide; [ done | ]. simpl.
    rewrite lookup_insert_ne; [ done | congruence ].
  - unfold logout. simpl in Hrev.
    destruct (Request.user request) as [u' | ]; [ | done ].
    destruct (tokens st !! u') eqn:Ht'; [ | done ]. simpl.
    split; [ | done ]. rewrite lookup_delete_ne; [ done | congruence ].
Qed.

Lemma run_keeps_token (evs : list event) (st : DB) (u : Z) (token : string) :
  Forall (fun ev => ~ revokes u ev) evs ->
  tokens st !! u = Some token ->
  tokens (run st evs) !! u = Some token /\ users (run st evs) = users st.
Proof.
  intros Hall. revert st. induction Hall as [ | ev evs Hev _ IH ]; intros st Ht.
  - done.
  - destruct (step_keeps_token st ev u token Hev Ht) as [Ht' Hu'].
    destruct (IH _ Ht') as [Ht'' Hu'']. simpl. split; [ done | congruence ].
Qed.

(** C9. Once a login of a user has answered a token, any later login with
    the same valid credentials answers that same token, whatever logins and
    logouts of others and logins of the user come between, as long as the
    user's token is not revoked by a logout. *)
Theorem C9_repeated_login_same_token (st st1 : DB) (request : Request.t)
    (u : Z) (key1 key2 token : string) (evs : list event) :
  LoginSerializer.run_validation st (Request.data request) = inr u ->
  login key1 st request = (st1, LoginSuccessful token) ->
  Forall (fun ev => ~ revokes u ev) evs ->
  login key2 (run st1 evs) request = (run st1 evs, LoginSuccessful token).
Proof.
  intros Hval Hlogin Hevs.
  pose proof (login_token _ _ _ _ _ _ Hval Hlogin) as Ht.
  assert (users st1 = users st) as Hu.
  { change st1 with (st1, LoginSuccessful token).1. rewrite <- Hlogin.
    apply login_users. }
  destruct (run_keeps_token evs st1 u token Hevs Ht) as [Ht' Hu'].
  apply (login_again key2 _ _ u); [ | done ].
  rewrite <- Hval. apply run_validation_users. congruence.
Qed.

End LoginTokens.

(** ** Creating a product *)

Section CreateProduct.
Context {framework : Framework}.

Lemma writable_fields :
  ProductSerializer._writable_fields
  = ["name"; "price"; "description"; "image"; "stock_quantity"; "category"].
Proof. reflexivity. Qed.

(** The serializer reads the body at its writable fields only. *)
Lemma to_internal_value_reads_writable (partial : bool) (st : DB)
    (data1 data2 : gmap string pyval) :
  (forall k : string, k ∈ ProductSerializer._writable_fields ->
                      data1 !! k = data2 !! k) ->
  ProductSerializer.to_internal_value partial st data1
  = ProductSerializer.to_internal_value partial st data2.
Proof.
  intros Hsame. unfold ProductSerializer.to_internal_value.
  rewrite writable_fields in *. simpl. unfold field_value.
  rewrite !Hsame by set_solver. reflexivity.
Qed.

(** C10. Two create requests of the same user whose bodies differ at most
    at the keys [user] and [created_date] have the same result: same
    product, same store, same response; and the product that is created
    belongs to the acting user and is dated by the server. *)
Theorem C10_create_ignores_user_and_created_date (now : Z) (st : DB)
    (request1 request2 : Request.t) (u : Z) :
  Request.user request1 = Some u ->
  Request.user request2 = Some u ->
  (forall k : string, k <> "user" -> k <> "created_date" ->
     Request.data request1 !! k = Request.data request2 !! k) ->
  ProductViewSet.create now st request1 = ProductViewSet.create now st request2
  /\ (forall (st' : DB) (message : string) (p : Product.t) (avg : Q),
        ProductViewSet.create now st request1
          = (st', Response (ProductData message p avg) HTTP_201_CREATED) ->
        products st' !! next_pk (products st) = Some p
        /\ Product.user p = u /\ Product.created_date p = now).
Proof.
  intros Hu1 Hu2 Hsame. unfold ProductViewSet.create.
  rewrite !(authenticated_user _ _ _ _ _ Hu1), !(authenticated_user _ _ _ _ _ Hu2)
    by done.
  rewrite (to_internal_value_reads_writable false st
             (Request.data request1) (Request.data request2)).
  2:{ intros k Hk. rewrite writable_fields in Hk.
      apply Hsame; intros ->;
        repeat (apply elem_of_cons in Hk as [Hk | Hk]; [ discriminate Hk | ]);
        by apply elem_of_nil in Hk. }
  split; [ reflexivity | ].
  intros st' message p avg.
  destruct (ProductSerializer.to_internal_value _ _ _) as [e | d];
    [ discriminate | ].
  unfold ProductSerializer.create. simpl.
  destruct (ProductSerializer.name d), (ProductSerializer.price d),
    (ProductSerializer.description d), (ProductSerializer.category d);
    try discriminate.
  unfold ProductViewSet.serializer_data.
  intros [= <- _ <- _]. simpl. by rewrite lookup_insert_eq.
Qed.

End CreateProduct.

(** ** The theorems at work on the example store *)

Section Instances.
Import OrderViewSet.

Lemma shop_stock_nonneg : stock_nonneg shop.
Proof.
  unfold stock_nonneg, shop. cbn [products].
  apply map_Forall_singleton. simpl. lia.
Defined.

Lemma C1_stock_after_three_orders :
  0 <= Product.stock_quantity (Product.mk "shirt" 1000 "" None 3 0 "t-shirts" 7).
Proof.
  apply (C1_stock_quantity_never_negative shop
           [ (order_request 2 (PyInt 3), 1);
             (order_request 3 (PyStr "-2"), 1);
             (order_request 2 (PyInt 1), 1);
             (order_request 3 (PyInt 9), 1) ]
           shop_stock_nonneg 1).
  vm_compute. reflexivity.
Defined.

Lemma C2_six_of_five :
  create_order shop (order_request 2 (PyInt 6)) 1 = (shop, InsufficientStock).
Proof.
  apply (C2_insufficient_stock_leaves_store shop (order_request 2 (PyInt 6)) 2 1
           (Product.mk "shirt" 1000 "" None 5 0 "t-shirts" 7) (PyInt 6) 6);
    try reflexivity; simpl; lia.
Defined.

Lemma C3_second_order_of_user_2 :
  (create_order shop_with_order (order_request 2 (PyStr "1")) 1).2 = AlreadyExists
  /\ orders (create_order shop_with_order (order_request 2 (PyStr "1")) 1).1
     = orders shop_with_order
  /\ Product.stock_quantity <$>
       products (create_order shop_with_order (order_request 2 (PyStr "1")) 1).1 !! 1
     = Some (5 - 1).
Proof.
  apply (C3_repeat_order_consumes_stock shop_with_order
           (order_request 2 (PyStr "1")) 2 1
           (Product.mk "shirt" 1000 "" None 5 0 "t-shirts" 7) (PyStr "1") 1
           1 (Order.mk 1 3 2));
    try reflexivity; [ | simpl; lia ].
  intros k' o' Hk' _ _. unfold shop_with_order in Hk'. cbn in Hk'.
  by apply lookup_singleton_Some in Hk' as [<- _].
Defined.

Lemma C4_text_is_invalid :
  create_order shop (order_request 2 (PyStr "two")) 1 = (shop, InvalidQuantity)
  /\ create_order shop (Request.mk (Some 2) ∅ ∅) 1 = (shop, QuantityRequired)
  /\ exists k q : Z,
       orders shop !! k = None
       /\ orders (create_order shop (order_request 2 (PyStr "0")) 1).1 !! k
          = Some (Order.mk 1 q 2)
       /\ 0 <= q <= 5.
Proof.
  split; [ | split ].
  - destruct (C4_quantity_present_and_integer shop
                (order_request 2 (PyStr "two")) 2 1
                (Product.mk "shirt" 1000 "" None 5 0 "t-shirts" 7)
                eq_refl eq_refl) as (_ & Hinvalid & _).
    apply (Hinvalid (PyStr "two")); reflexivity.
  - destruct (C4_quantity_present_and_integer shop
                (Request.mk (Some 2) ∅ ∅) 2 1
                (Product.mk "shirt" 1000 "" None 5 0 "t-shirts" 7)
                eq_refl eq_refl) as (Hrequired & _).
    apply Hrequired. reflexivity.
  - destruct (C4_quantity_present_and_integer shop
                (order_request 2 (PyStr "0")) 2 1
                (Product.mk "shirt" 1000 "" None 5 0 "t-shirts" 7)
                eq_refl eq_refl) as (_ & _ & Hcreated).
    apply Hcreated. reflexivity.
Defined.

Lemma shop_one_order_per_pair : one_order_per_pair shop.
Proof.
  intros u p. unfold matching. simpl.
  rewrite map_filter_empty, map_size_empty. lia.
Defined.

Lemma C5_two_orders_two_pairs :
  one_order_per_pair
    (place_orders shop [ (order_request 2 (PyInt 1), 1);
                         (order_request 2 (PyInt 1), 1);
                         (order_request 3 (PyInt 1), 1) ]).
Proof.
  apply (C5_create_order_keeps_one_per_pair shop
           [ (order_request 2 (PyInt 1), 1);
             (order_request 2 (PyInt 1), 1);
             (order_request 3 (PyInt 1), 1) ]
           shop_one_order_per_pair).
Defined.

Lemma C6_user_2_is_denied :
  ProductViewSet.partial_update (framework := plain_fields)
      shop_with_review rename_request 1
    = (shop_with_review,
       Raised (PermissionDenied
                 "You do not have permission to edit this product(s)."))
  /\ ReviewViewSet.destroy shop_with_review rename_request 1
    = (shop_with_review,
       Raised (PermissionDenied
                 "You do not have permission to delete this review.")).
Proof.
  destruct (C6_non_owner_is_denied (framework := plain_fields)
              shop_with_review rename_request 2 1 eq_refl) as [Hproduct Hreview].
  split.
  - apply (Hproduct (Product.mk "shirt" 1000 "" None 5 0 "t-shirts" 7));
      [ reflexivity | simpl; lia ].
  - apply (Hreview (Review.mk 1 3 (Some "fine") 0));
      [ reflexivity | simpl; lia ].
Defined.

Lemma C9_ann_keeps_her_token :
  UsersViews.login (framework := plain_fields) "k4"
    (UsersViews.run (framework := plain_fields) after_first_login between_logins)
    ann_logs_in
  = (UsersViews.run (framework := plain_fields) after_first_login between_logins,
     LoginSuccessful "k1").
Proof.
  apply (C9_repeated_login_same_token (framework := plain_fields)
           shop after_first_login ann_logs_in 2 "k1" "k4" "k1" between_logins).
  - vm_compute. reflexivity.
  - vm_compute. reflexivity.
  - repeat constructor; simpl; [ tauto | tauto | congruence ].
Defined.

Lemma C10_forged_owner_is_ignored :
  ProductViewSet.create (framework := plain_fields) 20 shop
    (Request.mk (Some 2) (new_product [("user", PyInt 7); ("created_date", PyInt 1)]) ∅)
  = ProductViewSet.create (framework := plain_fields) 20 shop
      (Request.mk (Some 2) (new_product []) ∅).
Proof.
  apply (C10_create_ignores_user_and_created_date (framework := plain_fields)
           20 shop
           (Request.mk (Some 2)
              (new_product [("user", PyInt 7); ("created_date", PyInt 1)]) ∅)
           (Request.mk (Some 2) (new_product []) ∅) 2 eq_refl eq_refl).
  intros k Huser Hdate. unfold new_product. simpl.
  rewrite !lookup_insert_ne by congruence. reflexivity.
Defined.

Example created_product_of_user_2 :
  (ProductViewSet.create (framework := plain_fields) 20 shop
     (Request.mk (Some 2) (new_product [("user", PyInt 7)]) ∅)).2
  = Response (ProductData "Product(s) uploaded successfully!"
                (Product.mk "cap" 1250 "a cap" None 4 20 "socks" 2) 0%Q)
             HTTP_201_CREATED.
Proof. vm_compute. reflexivity. Qed.


End Instances.

(** * Further properties of the views *)

(** ** The order workflow, further *)

Section OrderWorkflowFurther.
Import OrderViewSet.


(** What [create_order] writes, table by table. *)
Lemma create_order_writes (st : DB) (request : Request.t) (pk : Z) :
  users (create_order st request pk).1 = users st
  /\ tokens (create_order st request pk).1 = tokens st
  /\ reviews (create_order st request pk).1 = reviews st
  /\ ratings (create_order st request pk).1 = ratings st
  /\ (forall pk' : Z, pk' <> pk ->
        products (create_order st request pk).1 !! pk' = products st !! pk')
  /\ (forall p' : Product.t,
        products (create_order st request pk).1 !! pk = Some p' ->
        exists p : Product.t,
          products st !! pk = Some p
          /\ p' = Product.with_stock_quantity (Product.stock_quantity p') p)
  /\ orders st ⊆ orders (create_order st request pk).1.
Proof.
  unfold create_order, initial.
  destruct (check_permissions _ _), (Request.user request) as [u | ];
    simpl; try by (repeat split; eauto; intros p' Hp'; exists p'; by destruct p').
  unfold get_object_or_404.
  destruct (products st !! pk) as [p | ] eqn:Hp; simpl;
    [ | by repeat split; eauto; intros p' Hp'; congruence ].
  assert (forall p' : Product.t, Some p = Some p' ->
            exists p0 : Product.t, Some p = Some p0 /\
              p' = Product.with_stock_quantity (Product.stock_quantity p') p0)
    as Hsame.
  { intros p' [= <-]. exists p. split; [ done | by destruct p ]. }
  destruct (truthy _); simpl; [ | by rewrite Hp ].
  destruct (Py.int _) as [q | [ | | ]]; simpl; try by rewrite Hp.
  destruct (_ <? q); simpl; [ by rewrite Hp | ].
  assert (forall p' : Product.t,
            <[pk := Product.with_stock_quantity (Product.stock_quantity p - q) p]>
              (products st) !! pk = Some p' ->
            exists p0 : Product.t, Some p = Some p0 /\
              p' = Product.with_stock_quantity (Product.stock_quantity p') p0)
    as Hsaved.
  { intros p'. rewrite lookup_insert_eq. intros [= <-]. by exists p. }
  unfold get_or_create, Order_objects_create.
  destruct (size _) as [ | [ | n ] ]; simpl.
  - destruct (q <? 0); simpl; repeat split; try done;
      try (intros pk' Hne; by rewrite lookup_insert_ne).
    apply insert_subseteq, next_pk_fresh.
  - repeat split; try done. intros pk' Hne; by rewrite lookup_insert_ne.
  - repeat split; try done. intros pk' Hne; by rewrite lookup_insert_ne.
Qed.

Lemma create_order_adds_at_most_one (st : DB) (request : Request.t) (pk : Z) :
  (size (orders (create_order st request pk).1) <= S (size (orders st)))%nat.
Proof.
  unfold create_order, initial.
  destruct (check_permissions _ _), (Request.user request) as [u | ];
    simpl; try lia.
  unfold get_object_or_404.
  destruct (products st !! pk) as [p | ]; simpl; [ | lia ].
  destruct (truthy _); simpl; [ | lia ].
  destruct (Py.int _) as [q | [ | | ]]; simpl; try lia.
  destruct (_ <? q); simpl; [ lia | ].
  unfold get_or_create, Order_objects_create.
  destruct (size (matching _ _ _)) as [ | [ | n ] ]; simpl; try lia.
  destruct (q <? 0); simpl; [ lia | ].
  rewrite map_size_insert_None by apply next_pk_fresh. lia.
Qed.

(** X2. [create_order] writes nothing but the stock of the product it is
    called for and, at most, one new order: users, tokens, reviews and
    ratings stay, every other product stays, the product keeps all its
    other fields, no order is removed or altered, and the order table grows
    by one row at most. *)
Theorem create_order_frame (st : DB) (request : Request.t) (pk : Z) :
  users (create_order st request pk).1 = users st
  /\ tokens (create_order st request pk).1 = tokens st
  /\ reviews (create_order st request pk).1 = reviews st
  /\ ratings (create_order st request pk).1 = ratings st
  /\ (forall pk' : Z, pk' <> pk ->
        products (create_order st request pk).1 !! pk' = products st !! pk')
  /\ (forall p' : Product.t,
        products (create_order st request pk).1 !! pk = Some p' ->
        exists p : Product.t,
          products st !! pk = Some p
          /\ p' = Product.with_stock_quantity (Product.stock_quantity p') p)
  /\ orders st ⊆ orders (create_order st request pk).1
  /\ (size (orders (create_order st request pk).1) <= S (size (orders st)))%nat.
Proof.
  destruct (create_order_writes st request pk) as (Hu & Ht & Hr & Ha & Ho & Hp & Hs).
  refine (conj Hu (conj Ht (conj Hr (conj Ha (conj Ho (conj Hp (conj Hs _))))))).
  apply create_order_adds_at_most_one.
Qed.

(** X3. Once the quantity has passed the stock check, and the new stock is
    within the range of its column, the reduced stock is saved before the
    order row is looked up and stays saved whatever the answer then is, an
    exception of [get_or_create] included; the sign of the quantity is not
    looked at, so a negative one leaves more in stock than there was. *)
Theorem create_order_saves_stock_first (st : DB) (request : Request.t)
    (u pk : Z) (p : Product.t) (v : pyval) (q : Z) :
  Request.user request = Some u ->
  products st !! pk = Some p ->
  Request.data request !! "quantity" = Some v ->
  truthy v = true ->
  Py.int v = Ret q ->
  q <= Product.stock_quantity p ->
  Product.stock_quantity p - q <= positive_integer_max ->
  Product.stock_quantity <$> products (create_order st request pk).1 !! pk
    = Some (Product.stock_quantity p - q)
  /\ (q < 0 ->
      (create_order st request pk).2 <> Created
      /\ exists p' : Product.t,
           products (create_order st request pk).1 !! pk = Some p'
           /\ Product.stock_quantity p < Product.stock_quantity p').
Proof.
  intros Hu Hp Hv Htrue Hint Hle _.
  unfold create_order. rewrite (initial_authenticated _ _ _ _ Hu).
  unfold get_object_or_404. rewrite Hp, Hv. simpl. rewrite Htrue, Hint. simpl.
  apply Z.ltb_ge in Hle. rewrite Hle.
  unfold get_or_create, Order_objects_create.
  destruct (size _) as [ | [ | n ] ]; simpl.
  - destruct (q <? 0) eqn:Hq; simpl; rewrite lookup_insert_eq;
      (split; [ done | ]); intros Hneg.
    + split; [ done | ]. eexists. split; [ done | ]. simpl. lia.
    + apply Z.ltb_ge in Hq. lia.
  - rewrite lookup_insert_eq. split; [ done | ]. intros Hneg.
    split; [ done | ]. eexists. split; [ done | ]. simpl. lia.
  - rewrite lookup_insert_eq. split; [ done | ]. intros Hneg.
    split; [ done | ]. eexists. split; [ done | ]. simpl. lia.
Qed.

(** X4. [create_order] catches the [ValueError] of [int] and nothing else:
    a quantity that is a non-empty list or object, or an infinite float, is
    an unhandled [TypeError] or [OverflowError]; the store is left as it
    is. *)
Theorem create_order_uncaught_conversion (st : DB) (request : Request.t)
    (u pk : Z) (p : Product.t) (v : pyval) :
  Request.user request = Some u ->
  products st !! pk = Some p ->
  Request.data request !! "quantity" = Some v ->
  (forall (x : pyval) (l : list pyval), v = PyList (x :: l) ->
     create_order st request pk = (st, Raised (Builtin TypeError)))
  /\ (forall (x : string * pyval) (d : list (string * pyval)),
        v = PyDict (x :: d) ->
        create_order st request pk = (st, Raised (Builtin TypeError)))
  /\ (forall s : bool, v = PyFloat (S754_infinity s) ->
        create_order st request pk = (st, Raised (Builtin OverflowError))).
Proof.
  intros Hu Hp Hv. unfold create_order.
  rewrite (initial_authenticated _ _ _ _ Hu).
  unfold get_object_or_404. rewrite Hp, Hv. simpl.
  repeat split; intros; subst v; reflexivity.
Qed.

(** X5. The answers that refuse an order, [Quantity is required], [Invalid
    quantity value], [Not enough stock available], the 404 of a missing
    product (given before the quantity is looked at), the refusal of an
    anonymous caller and an exception of the conversion, all leave the store
    as it was. *)
Theorem create_order_refusals_leave_store (st : DB) (request : Request.t)
    (pk : Z) :
  (products st !! pk = None ->
   (create_order st request pk).2 = NotFound
   \/ (create_order st request pk).2 = Raised NotAuthenticated)
  /\ ((create_order st request pk).2 = QuantityRequired
      \/ (create_order st request pk).2 = InvalidQuantity
      \/ (create_order st request pk).2 = InsufficientStock
      \/ (create_order st request pk).2 = NotFound
      \/ (create_order st request pk).2 = Raised NotAuthenticated
      \/ (exists e : Py.exn, (create_order st request pk).2 = Raised (Builtin e)) ->
      (create_order st request pk).1 = st).
Proof.
  unfold create_order, initial.
  destruct (check_permissions _ _), (Request.user request) as [u | ];
    simpl; try by (split; [ right | ]).
  unfold get_object_or_404.
  destruct (products st !! pk) as [p | ] eqn:Hp; simpl;
    [ | by (split; [ left | ]) ].
  split; [ done | ].
  destruct (truthy _); simpl; [ | done ].
  destruct (Py.int _) as [q | [ | | ]]; simpl; try done.
  destruct (_ <? q); simpl; [ done | ].
  unfold get_or_create, Order_objects_create.
  destruct (size _) as [ | [ | n ] ]; simpl.
  - destruct (q <? 0); simpl; intros H;
      repeat (destruct H as [H | H]; try discriminate);
      destruct H as [e H]; discriminate.
  - intros H; repeat (destruct H as [H | H]; try discriminate);
      destruct H as [e H]; discriminate.
  - intros H; repeat (destruct H as [H | H]; try discriminate);
      destruct H as [e H]; discriminate.
Qed.

(** X6. The inherited [create] action stores the order the body describes:
    the product and the user are whatever existing keys the body names, the
    user need not be the caller, and the stock of the product is neither
    checked nor changed. *)
Theorem order_create_stores_body (st : DB) (request : Request.t)
    (caller product quantity user : Z) :
  Request.user request = Some caller ->
  Request.data request !! "product" = Some (PyInt product) ->
  Request.data request !! "quantity" = Some (PyInt quantity) ->
  Request.data request !! "user" = Some (PyInt user) ->
  is_Some (products st !! product) ->
  is_Some (users st !! user) ->
  0 <= quantity <= positive_integer_max ->
  create st request
  = (with_orders (<[next_pk (orders st) := Order.mk product quantity user]>
                    (orders st)) st,
     Response (OrderData None (Order.mk product quantity user)) HTTP_201_CREATED).
Proof.
  intros Hu Hp Hq Hw [p Hprod] [w Huser] [Hlo Hhi].
  unfold create. rewrite (initial_authenticated _ _ _ _ Hu).
  unfold OrderSerializer.to_internal_value, field_value.
  rewrite Hp, Hq, Hw. simpl. rewrite Hprod, Huser. simpl.
  apply Z.ltb_ge in Hhi. rewrite Hhi.
  assert ((quantity <? 0) = false) as Hneg by (apply Z.ltb_ge; lia).
  rewrite Hneg. simpl.
  unfold Order_objects_create. simpl. by rewrite Hneg.
Qed.

End OrderWorkflowFurther.

(** ** Serializers *)

Lemma gather_holds {A B : Type} (P : A -> Prop) (field_name : string)
    (r : option (Field.result B)) (set : B -> A -> A) (acc : validation A) :
  holds P acc ->
  (forall b d, r = Some (Field.Valid b) -> P d -> P (set b d)) ->
  holds P (gather field_name r set acc).
Proof.
  intros Hacc Hset. destruct acc as [errs d | e]; [ | done ]. simpl.
  destruct r as [[b | code | e] | ]; simpl; eauto.
Qed.

Lemma is_valid_holds {A : Type} (P : A -> Prop) (acc : validation A) (d : A) :
  holds P acc -> is_valid acc = inr d -> P d.
Proof.
  destruct acc as [[ | err errs] d' | e]; simpl; try discriminate.
  by intros HP [= <-].
Qed.

Lemma validate_method_valid {A : Type} (validate : A -> Field.result A)
    (r : option (Field.result A)) (b : A) :
  validate_method validate r = Some (Field.Valid b) ->
  exists a : A, validate a = Field.Valid b.
Proof.
  destruct r as [[a | code | e] | ]; simpl; try discriminate.
  intros [= H]. eauto.
Qed.

Section ProductsFurther.
Context {framework : Framework}.

Lemma validate_name_valid (a b : string) :
  ProductSerializer.validate_name a = Field.Valid b -> b <> "".
Proof.
  unfold ProductSerializer.validate_name. destruct a; simpl; [ done | ].
  by intros [= <-].
Qed.

Lemma validate_category_valid (a b : string) :
  ProductSerializer.validate_category a = Field.Valid b -> b <> "".
Proof.
  unfold ProductSerializer.validate_category. destruct a; simpl; [ done | ].
  by intros [= <-].
Qed.

Lemma validate_price_valid (a b : Z) :
  ProductSerializer.validate_price a = Field.Valid b -> 0 <= b <= 1000 * 100.
Proof.
  unfold ProductSerializer.validate_price.
  destruct (_ && _) eqn:Hb; simpl; [ | done ]. intros [= <-]. lia.
Qed.

Lemma validate_stock_quantity_valid (a b : Z) :
  ProductSerializer.validate_stock_quantity a = Field.Valid b -> 0 <= b <= 100.
Proof.
  unfold ProductSerializer.validate_stock_quantity.
  destruct (_ && _) eqn:Hb; simpl; [ | done ]. intros [= <-]. lia.
Qed.

(** What [to_internal_value] returns has passed the [validate_<field>]
    methods and says nothing of the read-only fields. *)
Lemma to_internal_value_within (partial : bool) (st : DB)
    (data : gmap string pyval) (d : ProductSerializer.validated) :
  ProductSerializer.to_internal_value partial st data = inr d ->
  validated_within d.
Proof.
  unfold ProductSerializer.to_internal_value. rewrite writable_fields.
  cbn -[gather field_value validate_method].
  apply is_valid_holds.
  repeat (apply gather_holds;
    [ | intros b d' Hr (Hn & Hp & Hs & Hc & Hd & Hu);
        refine (conj _ (conj _ (conj _ (conj _ (conj _ _)))));
        simpl; try assumption;
        intros x [= <-]; apply validate_method_valid in Hr as [a Ha];
        eauto using validate_name_valid, validate_category_valid,
          validate_price_valid, validate_stock_quantity_valid ]).
  by refine (conj _ (conj _ (conj _ (conj _ (conj _ _))))).
Qed.

(** The filters of [get_queryset] only narrow the table. *)
Lemma get_queryset_subseteq (st : DB) (request : Request.t)
    (queryset : QuerySet Product.t) :
  ProductViewSet.get_queryset request = inr queryset ->
  queryset st ⊆ products st.
Proof.
  unfold ProductViewSet.get_queryset, ProductViewSet.queryset.
  destruct (Request.query_params request !! "search") as [search | ];
    [ destruct (truthy (PyStr search)) | ];
    (destruct (Request.query_params request !! "price") as [price | ];
     [ destruct (truthy (PyStr price));
       [ destruct (Decimal price); [ | discriminate ] | ] | ]);
    intros [= <-];
    repeat (etrans; [ apply map_filter_subseteq | ]); done.
Qed.

(** [get_object] only finds rows of the products table. *)
Lemma get_object_lookup (st : DB) (request : Request.t) (pk : Z) (p : Product.t) :
  ProductViewSet.get_object st request pk = inr p -> products st !! pk = Some p.
Proof.
  unfold ProductViewSet.get_object, get_object_or_404.
  destruct (ProductViewSet.get_queryset request) as [e | queryset] eqn:Hq;
    [ discriminate | ].
  destruct (queryset st !! pk) as [row | ] eqn:Hrow; [ | discriminate ].
  intros [= <-].
  apply (lookup_weaken _ _ _ _ Hrow). by apply (get_queryset_subseteq st request).
Qed.

(** X7. A product that [create] stores has passed the [validate_<field>]
    methods: its name and category are not blank, its price is within
    [0, 1000] and its stock within [0, 100], both ends included; it is
    stored under a new key and no product is replaced. *)
Theorem product_create_within_bounds (now : Z) (st st' : DB)
    (request : Request.t) (message : string) (p : Product.t) (avg : Q) :
  ProductViewSet.create now st request
    = (st', Response (ProductData message p avg) HTTP_201_CREATED) ->
  product_valid p
  /\ products st' = <[next_pk (products st) := p]> (products st)
  /\ products st ⊆ products st'
  /\ orders st' = orders st /\ reviews st' = reviews st
  /\ ratings st' = ratings st /\ users st' = users st /\ tokens st' = tokens st.
Proof.
  unfold ProductViewSet.create, authenticated.
  destruct (check_permissions _ _), (Request.user request) as [u | ];
    try discriminate.
  destruct (ProductSerializer.to_internal_value _ _ _) as [e | d] eqn:Hd;
    [ discriminate | ].
  apply to_internal_value_within in Hd as (Hn & Hp & Hs & Hc & _ & _).
  unfold ProductSerializer.create. simpl.
  destruct (ProductSerializer.name d) as [n | ]; [ | discriminate ].
  destruct (ProductSerializer.price d) as [z | ]; [ | discriminate ].
  destruct (ProductSerializer.description d); [ | discriminate ].
  destruct (ProductSerializer.category d) as [c | ]; [ | discriminate ].
  intros [= <- _ <- _]. simpl.
  split; [ | repeat split; try done; apply insert_subseteq, next_pk_fresh ].
  unfold product_valid. simpl.
  refine (conj (Hn _ eq_refl) (conj (Hp _ eq_refl) (conj _ (Hc _ eq_refl)))).
  destruct (ProductSerializer.stock_quantity d) as [q | ]; simpl;
    [ by apply Hs | lia ].
Qed.

(** How [update] and [partial_update] end: the store is as it was, or the
    owner's product has taken the validated values. *)
Lemma product_update_cases (a : action) (partial : bool) (message : string)
    (st : DB) (request : Request.t) (pk : Z) :
  (ProductViewSet.update_with a partial message st request pk).1 = st
  \/ exists (p : Product.t) (d : ProductSerializer.validated),
       products st !! pk = Some p
       /\ Request.user request = Some (Product.user p)
       /\ validated_within d
       /\ (ProductViewSet.update_with a partial message st request pk).1
          = with_products (<[pk := ProductSerializer.update p d]> (products st)) st.
Proof.
  unfold ProductViewSet.update_with, authenticated.
  destruct (check_permissions _ _), (Request.user request) as [u | ];
    try by left.
  destruct (ProductViewSet.get_object st request pk) as [e | p] eqn:Hget;
    [ by left | ].
  destruct (Product.user p =? u) eqn:Hown; simpl; [ | by left ].
  destruct (ProductSerializer.to_internal_value _ _ _) as [e | d] eqn:Hd;
    [ by left | ].
  right. exists p, d. apply Z.eqb_eq in Hown. subst u.
  split; [ by apply (get_object_lookup st request) | ].
  split; [ done | ]. split; [ by eapply to_internal_value_within | done ].
Qed.

Lemma product_update_within (p : Product.t) (d : ProductSerializer.validated) :
  validated_within d ->
  Product.user (ProductSerializer.update p d) = Product.user p
  /\ Product.created_date (ProductSerializer.update p d) = Product.created_date p
  /\ (product_valid p -> product_valid (ProductSerializer.update p d)).
Proof.
  intros (Hn & Hp & Hs & Hc & Hd & Hu). unfold ProductSerializer.update.
  simpl. rewrite Hd, Hu. simpl. repeat split; try done.
  all: destruct H as (Vn & Vp & Vs & Vc); simpl.
  - destruct (ProductSerializer.name d); simpl; eauto.
  - destruct (ProductSerializer.price d); simpl; [ by apply Hp | lia ].
  - destruct (ProductSerializer.price d); simpl; [ by apply Hp | lia ].
  - destruct (ProductSerializer.stock_quantity d); simpl; [ by apply Hs | lia ].
  - destruct (ProductSerializer.stock_quantity d); simpl; [ by apply Hs | lia ].
  - destruct (ProductSerializer.category d); simpl; eauto.
Qed.

(** X8. [update] and [partial_update] never delete the product, never
    change its owner or its creation date, keep it within the bounds of the
    [validate_<field>] methods when it was, and touch no other product and
    no other table. *)
Theorem product_update_keeps_owner (st st' : DB) (request : Request.t)
    (pk : Z) (p : Product.t) :
  products st !! pk = Some p ->
  st' = (ProductViewSet.update st request pk).1
  \/ st' = (ProductViewSet.partial_update st request pk).1 ->
  (exists p' : Product.t,
     products st' !! pk = Some p'
     /\ Product.user p' = Product.user p
     /\ Product.created_date p' = Product.created_date p
     /\ (product_valid p -> product_valid p'))
  /\ (forall pk' : Z, pk' <> pk -> products st' !! pk' = products st !! pk')
  /\ users st' = users st /\ tokens st' = tokens st /\ orders st' = orders st
  /\ reviews st' = reviews st /\ ratings st' = ratings st.
Proof.
  intros Hp Hst'.
  assert (exists a partial message,
            st' = (ProductViewSet.update_with a partial message st request pk).1)
    as (a & partial & message & ->).
  { destruct Hst' as [-> | ->]; by do 3 eexists. }
  destruct (product_update_cases a partial message st request pk)
    as [-> | (p0 & d & Hp0 & _ & Hd & ->)].
  - split; [ by exists p | done ].
  - rewrite Hp in Hp0. injection Hp0 as <-. simpl.
    destruct (product_update_within p d Hd) as (Hu & Hc & Hv).
    split; [ | repeat split; try done; intros pk' Hne;
               by rewrite lookup_insert_ne ].
    exists (ProductSerializer.update p d). by rewrite lookup_insert_eq.
Qed.

(** X9. A [partial_update] of the owner whose body carries none of the
    writable fields, whatever it says of [user] or [created_date], is
    answered 200 and changes nothing. *)
Theorem product_patch_without_fields (st : DB) (request : Request.t)
    (u pk : Z) (p : Product.t) :
  Request.user request = Some u ->
  ProductViewSet.get_object st request pk = inr p ->
  Product.user p = u ->
  (forall k : string, k ∈ ProductSerializer._writable_fields ->
                      Request.data request !! k = None) ->
  ProductViewSet.partial_update st request pk
  = (st, Response (ProductViewSet.serializer_data "Product partially updated!"
                     st pk p) HTTP_200_OK).
Proof.
  intros Hu Hget Hown Hnone.
  unfold ProductViewSet.partial_update, ProductViewSet.update_with.
  rewrite (authenticated_user _ _ _ _ _ Hu) by done.
  rewrite Hget. apply Z.eqb_eq in Hown. rewrite Hown. simpl.
  rewrite (to_internal_value_reads_writable true st (Request.data request) ∅).
  2:{ intros k Hk. by rewrite Hnone, lookup_empty. }
  assert (ProductSerializer.to_internal_value true st ∅
          = inr ProductSerializer.empty) as -> by reflexivity.
  assert (ProductSerializer.update p ProductSerializer.empty = p) as ->
    by by destruct p.
  rewrite insert_id by by apply (get_object_lookup st request).
  by destruct st.
Qed.

(** X10. [destroy] by the owner removes the product and, with it, exactly
    the orders, reviews and ratings that point to it; users, tokens and the
    other products stay. *)
Theorem product_destroy_cascades (st : DB) (request : Request.t)
    (u pk : Z) (p : Product.t) :
  Request.user request = Some u ->
  ProductViewSet.get_object st request pk = inr p ->
  Product.user p = u ->
  (ProductViewSet.destroy st request pk).2
    = Response (Message "Product(s) deleted successfully!") HTTP_204_NO_CONTENT
  /\ products (ProductViewSet.destroy st request pk).1 = delete pk (products st)
  /\ (forall (k : Z) (o : Order.t),
        orders (ProductViewSet.destroy st request pk).1 !! k = Some o
        <-> orders st !! k = Some o /\ Order.product o <> pk)
  /\ (forall (k : Z) (r : Review.t),
        reviews (ProductViewSet.destroy st request pk).1 !! k = Some r
        <-> reviews st !! k = Some r /\ Review.product r <> pk)
  /\ (forall (k : Z) (r : Rate.t),
        ratings (ProductViewSet.destroy st request pk).1 !! k = Some r
        <-> ratings st !! k = Some r /\ Rate.product r <> pk)
  /\ users (ProductViewSet.destroy st request pk).1 = users st
  /\ tokens (ProductViewSet.destroy st request pk).1 = tokens st.
Proof.
  intros Hu Hget Hown. unfold ProductViewSet.destroy.
  rewrite (authenticated_user _ _ _ _ _ Hu) by done.
  rewrite Hget. apply Z.eqb_eq in Hown. rewrite Hown. simpl.
  split; [ done | ]. split; [ done | ].
  split; [ intros k o; apply map_lookup_filter_Some | ].
  split; [ intros k r; apply map_lookup_filter_Some | ].
  split; [ intros k r; apply map_lookup_filter_Some | done ].
Qed.

(** X11. Whatever the query string, [get_object] finds only rows of the
    products table; with [search] and [price] absent or empty it finds
    every row, and the answer for a missing key is 404. *)
Theorem product_get_object_plain (st : DB) (request : Request.t) (pk : Z) :
  (forall p : Product.t,
     ProductViewSet.get_object st request pk = inr p ->
     products st !! pk = Some p)
  /\ (default "" (Request.query_params request !! "search") = "" ->
      default "" (Request.query_params request !! "price") = "" ->
      ProductViewSet.get_object st request pk
      = match products st !! pk with
        | Some p => inr p
        | None => inl Http404
        end).
Proof.
  split; [ intros p; apply get_object_lookup | ].
  intros Hs Hp.
  unfold ProductViewSet.get_object, ProductViewSet.get_queryset,
    ProductViewSet.queryset, get_object_or_404.
  destruct (Request.query_params request !! "search") as [search | ];
    simpl in Hs; subst;
    (destruct (Request.query_params request !! "price") as [price | ];
     simpl in Hp; subst); simpl; by destruct (products st !! pk).
Qed.

End ProductsFurther.

(** ** Reviews *)

Section ReviewsFurther.
Context {framework : Framework}.

Lemma review_update_cases (a : action) (partial : bool) (message : string)
    (st : DB) (request : Request.t) (pk : Z) :
  (ReviewViewSet.update_with a partial message st request pk).1 = st
  \/ exists (r : Review.t) (d : ReviewSerializer.validated),
       reviews st !! pk = Some r
       /\ Request.user request = Some (Review.user r)
       /\ (ReviewViewSet.update_with a partial message st request pk).1
          = with_reviews (<[pk := ReviewSerializer.update r d]> (reviews st)) st.
Proof.
  unfold ReviewViewSet.update_with, authenticated.
  destruct (check_permissions _ _), (Request.user request) as [u | ];
    try by left.
  unfold ReviewViewSet.get_object, get_object_or_404, ReviewViewSet.queryset.
  destruct (reviews st !! pk) as [r | ] eqn:Hr; [ | by left ]. simpl.
  destruct (Review.user r =? u) eqn:Hown; simpl; [ | by left ].
  destruct (ReviewSerializer.to_internal_value _ _ _) as [e | d];
    [ by left | ].
  right. exists r, d. apply Z.eqb_eq in Hown. by subst u.
Qed.

(** X12. [update] and [partial_update] of a review change at most its
    product and its text, and only for its author: the author and the date
    of the review stay, and so do all other reviews and all other tables. *)
Theorem review_update_keeps_author (st st' : DB) (request : Request.t)
    (pk : Z) (r : Review.t) :
  reviews st !! pk = Some r ->
  st' = (ReviewViewSet.update st request pk).1
  \/ st' = (ReviewViewSet.partial_update st request pk).1 ->
  (exists r' : Review.t,
     reviews st' !! pk = Some r'
     /\ Review.user r' = Review.user r
     /\ Review.review_date r' = Review.review_date r
     /\ (Request.user request <> Some (Review.user r) -> r' = r))
  /\ (forall pk' : Z, pk' <> pk -> reviews st' !! pk' = reviews st !! pk')
  /\ users st' = users st /\ tokens st' = tokens st
  /\ products st' = products st /\ orders st' = orders st
  /\ ratings st' = ratings st.
Proof.
  intros Hr Hst'.
  assert (exists a partial message,
            st' = (ReviewViewSet.update_with a partial message st request pk).1)
    as (a & partial & message & ->).
  { destruct Hst' as [-> | ->]; by do 3 eexists. }
  destruct (review_update_cases a partial message st request pk)
    as [-> | (r0 & d & Hr0 & Hu & ->)].
  - split; [ by exists r | done ].
  - rewrite Hr in Hr0. injection Hr0 as <-. simpl.
    split; [ | repeat split; try done; intros pk' Hne;
               by rewrite lookup_insert_ne ].
    exists (ReviewSerializer.update r d). rewrite lookup_insert_eq.
    repeat split; done.
Qed.

End ReviewsFurther.

(** ** Who may write *)

Section WhoMayWrite.
Context {framework : Framework}.

(** X13. An anonymous caller is refused by [create_order], [create],
    [retrieve], [update], [partial_update] and [destroy] of the order
    viewset, by [create], [update], [partial_update] and [destroy] of the
    product, review and rating viewsets, by [logout] and by
    [delete_account], and the store is left as it is. *)
Theorem anonymous_cannot_write (now : Z) (st : DB) (request : Request.t) (pk : Z) :
  Request.user request = None ->
  (OrderViewSet.create_order st request pk = (st, Raised NotAuthenticated)
   /\ OrderViewSet.retrieve st request pk = (st, Raised NotAuthenticated)
   /\ OrderViewSet.update st request pk = (st, Raised NotAuthenticated)
   /\ OrderViewSet.partial_update st request pk = (st, Raised NotAuthenticated)
   /\ OrderViewSet.destroy st request pk = (st, Raised NotAuthenticated)
   /\ OrderViewSet.create st request = (st, Raised NotAuthenticated))
  /\ (ProductViewSet.create now st request = (st, Raised NotAuthenticated)
      /\ ProductViewSet.update st request pk = (st, Raised NotAuthenticated)
      /\ ProductViewSet.partial_update st request pk = (st, Raised NotAuthenticated)
      /\ ProductViewSet.destroy st request pk = (st, Raised NotAuthenticated))
  /\ (ReviewViewSet_create st request = (st, Raised NotAuthenticated)
      /\ ReviewViewSet.update st request pk = (st, Raised NotAuthenticated)
      /\ ReviewViewSet.partial_update st request pk = (st, Raised NotAuthenticated)
      /\ ReviewViewSet.destroy st request pk = (st, Raised NotAuthenticated))
  /\ (RateViewset.create st request = (st, Failed NotAuthenticated)
      /\ RateViewset.update st request pk = (st, Failed NotAuthenticated)
      /\ RateViewset.partial_update st request pk = (st, Failed NotAuthenticated)
      /\ RateViewset.destroy st request pk = (st, Failed NotAuthenticated))
  /\ UsersViews.logout st request = (st, Raised NotAuthenticated)
  /\ AccountViews.delete_account st request = (st, Raised NotAuthenticated).
Proof.
  intros Hu.
  unfold OrderViewSet.create_order, OrderViewSet.retrieve, OrderViewSet.update,
    OrderViewSet.partial_update, OrderViewSet.update_with, OrderViewSet.destroy,
    OrderViewSet.create, OrderViewSet.initial,
    ProductViewSet.create, ProductViewSet.update, ProductViewSet.partial_update,
    ProductViewSet.update_with, ProductViewSet.destroy,
    ReviewViewSet_create, ReviewViewSet.update, ReviewViewSet.partial_update,
    ReviewViewSet.update_with, ReviewViewSet.destroy, authenticated,
    RateViewset.create, RateViewset.update, RateViewset.partial_update,
    RateViewset.update_with, RateViewset.destroy, RateViewset.authenticated_reply,
    UsersViews.logout, AccountViews.delete_account, check_permissions.
  simpl. rewrite Hu. simpl. repeat split.
Qed.

End WhoMayWrite.

(** ** Ratings *)

Section RatingsFurther.
Import ProductSerializer.

Lemma sum_between (lo hi : Z) (values : list Z) :
  (forall r : Z, r ∈ values -> lo <= r <= hi) ->
  lo * Z.of_nat (length values) <= foldr Z.add 0 values
  <= hi * Z.of_nat (length values).
Proof.
  induction values as [ | v values IH ]; intros Hall; [ simpl; lia | ].
  assert (lo <= v <= hi) by (apply Hall; left).
  assert (forall r : Z, r ∈ values -> lo <= r <= hi) as Hrest
    by (intros r Hr; apply Hall; by right).
  specialize (IH Hrest). cbn [foldr length]. lia.
Qed.

Lemma get_average_rating_mean (st : DB) (obj : Z) :
  get_average_rating st obj =
    match ratings_of st obj with
    | [] => 0%Q
    | ratings =>
        (inject_Z (foldr Z.add 0%Z ratings)
         / inject_Z (Z.of_nat (length ratings)))%Q
    end.
Proof.
  unfold get_average_rating, Avg. rewrite Avg_fold.
  destruct (ratings_of st obj) as [ | r rs ]; [ reflexivity | ].
  rewrite !Z.add_0_l.
  destruct (Z.eqb_spec (Z.of_nat (length (r :: rs))) 0) as [Hz | _];
    [ simpl in Hz; lia | reflexivity ].
Qed.

Lemma mean_between (st : DB) (obj lo hi : Z) :
  lo <= 0 <= hi ->
  (forall r : Z, r ∈ ratings_of st obj -> lo <= r <= hi) ->
  (inject_Z lo <= get_average_rating st obj <= inject_Z hi)%Q.
Proof.
  intros [Hlo Hhi] Hall. rewrite get_average_rating_mean.
  pose proof (sum_between lo hi _ Hall) as [Hsl Hsh].
  destruct (ratings_of st obj) as [ | r rs ] eqn:Hrs.
  - split; by rewrite <- (Zle_Qle _ 0) || rewrite <- (Zle_Qle 0 _).
  - set (n := Z.of_nat (length (r :: rs))) in *.
    assert (0 < inject_Z n)%Q as Hn.
    { rewrite <- (Zlt_Qlt 0). subst n. simpl. lia. }
    split.
    + apply Qle_shift_div_l; [ done | ].
      rewrite <- inject_Z_mult. by rewrite <- Zle_Qle.
    + apply Qle_shift_div_r; [ done | ].
      rewrite <- inject_Z_mult. by rewrite <- Zle_Qle.
Qed.

(** X14. The average rating lies between the bounds of the ratings it is
    taken over: when every rating of the product is within [lo, hi], with
    [lo <= 0 <= hi] for the product without ratings, so is
    [get_average_rating]. *)
Theorem average_rating_between (st : DB) (obj lo hi : Z) :
  lo <= 0 <= hi ->
  (forall r : Z, r ∈ ratings_of st obj -> lo <= r <= hi) ->
  (inject_Z lo <= get_average_rating st obj <= inject_Z hi)%Q.
Proof. apply mean_between. Qed.

Lemma validate_rating_valid (a b : Z) :
  RateSerializer.validate_rating a = Field.Valid b -> 0 <= b <= 5.
Proof.
  unfold RateSerializer.validate_rating.
  destruct (_ && _) eqn:Hb; simpl; [ | done ]. intros [= <-]. lia.
Qed.

Lemma rate_to_internal_value_within (partial : bool) (st : DB)
    (data : gmap string pyval) (d : RateSerializer.validated) :
  RateSerializer.to_internal_value partial st data = inr d ->
  forall z : Z, RateSerializer.rating d = Some z -> 0 <= z <= 5.
Proof.
  unfold RateSerializer.to_internal_value.
  apply (is_valid_holds
           (fun d => forall z : Z, RateSerializer.rating d = Some z -> 0 <= z <= 5)).
  repeat (apply gather_holds;
    [ | intros b d' Hr Hd; simpl; try assumption;
        intros x [= <-]; apply validate_method_valid in Hr as [a Ha];
        by apply (validate_rating_valid a) ]).
  done.
Qed.

Lemma serve_ratings_within (st : DB) (c : RateViewset.call) :
  ratings_within st -> ratings_within (RateViewset.serve st c).
Proof.
  intros Hinv.
  destruct c as [request | request pk | request pk | request pk]; simpl;
    unfold RateViewset.create, RateViewset.update, RateViewset.partial_update,
      RateViewset.update_with, RateViewset.destroy,
      RateViewset.authenticated_reply;
    (destruct (check_permissions _ _), (Request.user request) as [u | ];
     try done).
  - destruct (RateSerializer.to_internal_value _ _ _) as [e | d] eqn:Hd;
      [ done | ].
    pose proof (rate_to_internal_value_within _ _ _ _ Hd) as Hz.
    unfold RateSerializer.create.
    destruct (RateSerializer.user d), (RateSerializer.product d); try done.
    simpl. apply map_Forall_insert_2; [ | done ]. simpl.
    destruct (RateSerializer.rating d); simpl; [ by apply Hz | lia ].
  - unfold RateViewset.get_object, get_object_or_404, RateViewset.queryset.
    destruct (ratings st !! pk) as [r | ] eqn:Hr; [ | done ]. simpl.
    destruct (RateSerializer.to_internal_value _ _ _) as [e | d] eqn:Hd;
      [ done | ].
    pose proof (rate_to_internal_value_within _ _ _ _ Hd) as Hz.
    simpl. apply map_Forall_insert_2; [ | done ]. simpl.
    destruct (RateSerializer.rating d); simpl; [ by apply Hz | ].
    apply (Hinv _ _ Hr).
  - unfold RateViewset.get_object, get_object_or_404, RateViewset.queryset.
    destruct (ratings st !! pk) as [r | ] eqn:Hr; [ | done ]. simpl.
    destruct (RateSerializer.to_internal_value _ _ _) as [e | d] eqn:Hd;
      [ done | ].
    pose proof (rate_to_internal_value_within _ _ _ _ Hd) as Hz.
    simpl. apply map_Forall_insert_2; [ | done ]. simpl.
    destruct (RateSerializer.rating d); simpl; [ by apply Hz | ].
    apply (Hinv _ _ Hr).
  - unfold RateViewset.get_object, get_object_or_404, RateViewset.queryset.
    destruct (ratings st !! pk) as [r | ] eqn:Hr; [ | done ]. simpl.
    by apply map_Forall_delete.
Qed.

Lemma ratings_of_stored (st : DB) (obj r : Z) :
  r ∈ ratings_of st obj ->
  exists (k : Z) (row : Rate.t), ratings st !! k = Some row /\ Rate.rating row = r.
Proof.
  unfold ratings_of. intros ([k row] & -> & Hin)%list_elem_of_fmap.
  apply elem_of_map_to_list, map_lookup_filter_Some in Hin as [Hrow _].
  eauto.
Qed.

(** X15. The rating endpoints keep every stored rating within [0, 5]:
    after any sequence of [create], [update], [partial_update] and
    [destroy] requests on a store whose ratings are within these bounds
    they still are, and so is the average rating of every product. *)
Theorem rating_api_keeps_bounds (st : DB) (calls : list RateViewset.call) :
  ratings_within st ->
  ratings_within (fold_left RateViewset.serve calls st)
  /\ forall obj : Z,
       (0 <= get_average_rating (fold_left RateViewset.serve calls st) obj <= 5)%Q.
Proof.
  intros Hinv.
  assert (ratings_within (fold_left RateViewset.serve calls st)) as Hfinal.
  { revert st Hinv. induction calls as [ | c calls IH ]; intros st Hinv;
      [ done | ]. simpl. by apply IH, serve_ratings_within. }
  split; [ done | ]. intros obj.
  apply (mean_between _ obj 0 5); [ lia | ].
  intros r (k & row & Hrow & <-)%ratings_of_stored. apply (Hfinal _ _ Hrow).
Qed.

(** X16. The rating viewset has no owner check: any authenticated caller
    deletes any rating, and overwrites the value of any rating with a value
    within [0, 5]. *)
Theorem rating_write_by_anyone (st : DB) (request : Request.t)
    (caller pk : Z) (r : Rate.t) :
  Request.user request = Some caller ->
  ratings st !! pk = Some r ->
  RateViewset.destroy st request pk
    = (with_ratings (delete pk (ratings st)) st, Reply None HTTP_204_NO_CONTENT)
  /\ (forall z : Z,
        0 <= z <= 5 ->
        Request.data request !! "rating" = Some (PyInt z) ->
        Request.data request !! "user" = None ->
        Request.data request !! "product" = None ->
        RateViewset.partial_update st request pk
        = (with_ratings
             (<[pk := Rate.mk (Rate.user r) (Rate.product r) z]> (ratings st)) st,
           Reply (Some (Rate.mk (Rate.user r) (Rate.product r) z)) HTTP_200_OK)).
Proof.
  intros Hu Hr.
  unfold RateViewset.destroy, RateViewset.partial_update,
    RateViewset.update_with, RateViewset.authenticated_reply,
    check_permissions. simpl. rewrite Hu. simpl.
  unfold RateViewset.get_object, get_object_or_404, RateViewset.queryset.
  rewrite Hr. simpl. split; [ done | ].
  intros z [Hlo Hhi] Hz Hnu Hnp.
  unfold RateSerializer.to_internal_value, field_value.
  rewrite Hz, Hnu, Hnp. simpl.
  assert ((positive_integer_max <? z) = false) as ->
    by (apply Z.ltb_ge; unfold positive_integer_max; lia).
  assert ((z <? integer_min) = false) as ->
    by (apply Z.ltb_ge; unfold integer_min; lia).
  simpl. unfold RateSerializer.validate_rating.
  assert (((0 <=? z) && (z <=? 5)) = true) as ->
    by (apply andb_true_iff; split; by apply Z.leb_le).
  reflexivity.
Qed.

End RatingsFurther.

(** ** Accounts *)

Section AccountsFurther.
Context {framework : Framework} {accounts : Accounts}.
Import AccountViews.

Lemma not_taken (proj : CustomUser.t -> string) (st : DB) (value : string) :
  taken proj None st value = false ->
  forall (k : Z) (row : CustomUser.t),
    users st !! k = Some row -> proj row <> value.
Proof.
  unfold taken. intros Hno k row Hrow Heq.
  apply bool_decide_eq_false in Hno. apply Hno. by exists k, row.
Qed.

Lemma unique_valid (proj : CustomUser.t -> string) (st : DB)
    (r : Field.result string) (value : string) :
  unique proj None st r = Field.Valid value ->
  taken proj None st value = false.
Proof.
  destruct r as [v | code | e]; simpl; try discriminate.
  destruct (taken proj None st v) eqn:Hv; [ discriminate | ].
  by intros [= <-].
Qed.

(** How [register] ends: with the store as it was and an answer that is
    not 201, or with one new account under a new key. *)
Lemma register_cases (st : DB) (request : Request.t) :
  ((register st request).1 = st
   /\ exists (errors : list (string * string)) (status : Z),
        (register st request).2 = Response (Errors errors) status
        /\ status <> HTTP_201_CREATED)
  \/ exists (d : RegisterSerializer.validated) (n e c pw : string),
       RegisterSerializer.run_validation st (Request.data request) = inr d
       /\ RegisterSerializer.username d = Some n
       /\ RegisterSerializer.email d = Some e
       /\ RegisterSerializer.country d = Some c
       /\ RegisterSerializer.password d = Some pw
       /\ RegisterSerializer.password_2 d = Some pw
       /\ taken CustomUser.username None st n = false
       /\ taken CustomUser.email None st (normalize_email e) = false
       /\ register st request
          = (with_users
               (<[next_pk (users st) :=
                    CustomUser.mk n (normalize_email e) c
                      (default None (RegisterSerializer.profile_picture d))
                      (make_password (Some pw)) true]> (users st)) st,
             Response (Message ("User " ++ n ++ " has been created successfully"))
                      HTTP_201_CREATED).
Proof.
  unfold register.
  destruct (RegisterSerializer.run_validation _ _) as [e | d] eqn:Hd.
  { left. destruct e; simpl; (split; [ done | ]); by do 2 eexists. }
  unfold RegisterSerializer.create, CustomUserManager.create_user.
  destruct (RegisterSerializer.username d) as [n | ] eqn:Hn;
    [ | left; simpl; (split; [ done | ]); by do 2 eexists ].
  destruct (RegisterSerializer.email d) as [e | ] eqn:He;
    [ | left; simpl; (split; [ done | ]); by do 2 eexists ].
  destruct (RegisterSerializer.country d) as [c | ] eqn:Hc;
    [ | left; simpl; (split; [ done | ]); by do 2 eexists ].
  destruct (RegisterSerializer.password d) as [pw | ] eqn:Hpw;
    [ | left; simpl; (split; [ done | ]); by do 2 eexists ].
  destruct (negb (truthy (PyStr e)));
    [ left; simpl; (split; [ done | ]); by do 2 eexists | ].
  destruct (taken CustomUser.username None st n) eqn:Htn; simpl;
    [ left; simpl; (split; [ done | ]); by do 2 eexists | ].
  destruct (taken CustomUser.email None st (normalize_email e)) eqn:Hte; simpl;
    [ left; simpl; (split; [ done | ]); by do 2 eexists | ].
  rewrite !lookup_insert_eq. simpl. rewrite !lookup_insert_eq. simpl.
  rewrite insert_insert_eq.
  right. exists d, n, e, c, pw. repeat split; try done.
  revert Hd. unfold RegisterSerializer.run_validation.
  destruct (RegisterSerializer.to_internal_value _ _) as [e' | d']; [ done | ].
  unfold RegisterSerializer.validate. case_bool_decide as Hsame; simpl;
    [ | done ].
  intros [= ->]. by rewrite <- Hsame.
Qed.

(** X17. [register] never raises and writes only when it answers 201: any
    other answer leaves the store as it was. Passwords that differ are
    answered 400, "Passwords must match.", and no account is made. *)
Theorem register_refusals_write_nothing (st : DB) (request : Request.t) :
  (exists (body : payload) (status : Z),
     (register st request).2 = Response body status
     /\ (status <> HTTP_201_CREATED -> (register st request).1 = st))
  /\ (forall d : RegisterSerializer.validated,
        RegisterSerializer.to_internal_value st (Request.data request) = inr d ->
        RegisterSerializer.password d <> RegisterSerializer.password_2 d ->
        register st request
        = (st, Response (Errors [("non_field_errors", "Passwords must match.")])
                        HTTP_400_BAD_REQUEST)).
Proof.
  split.
  - destruct (register_cases st request)
      as [(Hst & errors & status & Hr & Hs) | (d & n & e & c & pw & H)].
    + exists (Errors errors), status. by rewrite Hr.
    + destruct H as (_ & _ & _ & _ & _ & _ & _ & _ & ->). simpl.
      do 2 eexists. split; [ done | ]. done.
  - intros d Hd Hne. unfold register, RegisterSerializer.run_validation.
    rewrite Hd. unfold RegisterSerializer.validate.
    by rewrite bool_decide_false.
Qed.


Lemma authenticate_new_account (st : DB) (pk : Z) (user : CustomUser.t)
    (raw : string) :
  (forall (k : Z) (row : CustomUser.t),
     users st !! k = Some row ->
     CustomUser.username row <> CustomUser.username user) ->
  check_password raw (CustomUser.password user) = true ->
  CustomUser.is_active user = true ->
  LoginSerializer.authenticate
    (with_users (<[pk := user]> (users st)) st) (CustomUser.username user) raw
  = Some pk.
Proof.
  intros Hnew Hpw Hactive. unfold LoginSerializer.authenticate. simpl.
  rewrite map_filter_insert_True by done.
  assert (filter (fun kv : Z * CustomUser.t =>
                    CustomUser.username kv.2 = CustomUser.username user)
                 (users st) = ∅) as ->.
  { apply map_empty. intros k. apply map_lookup_filter_None. right.
    intros row Hrow. by apply Hnew in Hrow. }
  rewrite insert_empty, map_to_list_singleton. by rewrite Hpw, Hactive.
Qed.

(** X19. An account that [register] has made can log in: with a hasher
    whose [check_password] accepts the password it hashed, [login] with the
    registered user name and password answers 200 with a token that is
    stored for the new user. *)
Theorem register_then_login (st st' : DB) (request login_request : Request.t)
    (message key n pw : string) (d : RegisterSerializer.validated)
    (vn vp : pyval) :
  (forall raw : string, check_password raw (make_password (Some raw)) = true) ->
  register st request = (st', Response (Message message) HTTP_201_CREATED) ->
  RegisterSerializer.run_validation st (Request.data request) = inr d ->
  RegisterSerializer.username d = Some n ->
  RegisterSerializer.password d = Some pw ->
  Request.data login_request !! "username" = Some vn ->
  CharField None vn = Field.Valid n ->
  Request.data login_request !! "password" = Some vp ->
  CharField None vp = Field.Valid pw ->
  ~ map_Exists (fun _ k => k = key) (tokens st') ->
  exists (token : string) (st'' : DB),
    UsersViews.login key st' login_request = (st'', LoginSuccessful token)
    /\ tokens st'' !! next_pk (users st) = Some token
    /\ (CustomUser.username <$> users st'' !! next_pk (users st)) = Some n.
Proof.
  intros Hhash Hreg Hd Hn Hpw Hvn Hvn' Hvp Hvp' Hkey.
  destruct (register_cases st request)
    as [(_ & errors & status & Hr & _) | (d0 & n0 & e & c & pw0 & H)].
  { rewrite Hreg in Hr. discriminate. }
  destruct H as (Hd0 & Hn0 & _ & _ & Hpw0 & _ & Htn & _ & Hreg0).
  rewrite Hd in Hd0. injection Hd0 as <-.
  rewrite Hn in Hn0. injection Hn0 as <-.
  rewrite Hpw in Hpw0. injection Hpw0 as <-.
  rewrite Hreg in Hreg0. injection Hreg0 as -> _.
  set (user := CustomUser.mk n _ _ _ _ _) in *.
  unfold UsersViews.login, LoginSerializer.run_validation, field_value.
  rewrite Hvn, Hvp. simpl. rewrite Hvn', Hvp'. simpl.
  unfold LoginSerializer.validate. simpl.
  rewrite (authenticate_new_account st _ user pw);
    [ | apply (not_taken _ _ _ Htn) | apply Hhash | done ].
  unfold LoginSerializer.to_representation, LoginSerializer.Token_get_or_create.
  simpl.
  destruct (tokens st !! next_pk (users st)) as [token | ] eqn:Ht.
  - exists token. eexists. split; [ done | ]. simpl.
    by rewrite Ht, lookup_insert_eq.
  - rewrite bool_decide_false by done. exists key. eexists.
    split; [ done | ]. simpl. by rewrite !lookup_insert_eq.
Qed.

Lemma product_stays_true (st : DB) (u product : Z) (p : Product.t) :
  product_stays st u product = true ->
  products st !! product = Some p ->
  Product.user p <> u.
Proof.
  unfold product_stays. intros Hs Hp. rewrite Hp in Hs.
  by apply negb_true_iff, Z.eqb_neq in Hs.
Qed.

(** X20. [delete_account] removes the account of the caller with its token
    and with every product, order, review and rating that names the caller
    as user; the other accounts and tokens stay. *)
Theorem delete_account_cascades (st : DB) (request : Request.t) (u : Z) :
  Request.user request = Some u ->
  (delete_account st request).2
    = Response (Message "Account deleted successfully") HTTP_200_OK
  /\ users (delete_account st request).1 = delete u (users st)
  /\ tokens (delete_account st request).1 = delete u (tokens st)
  /\ (forall (k : Z) (p : Product.t),
        products (delete_account st request).1 !! k = Some p
        <-> products st !! k = Some p /\ Product.user p <> u)
  /\ map_Forall (fun _ o => Order.user o <> u)
                (orders (delete_account st request).1)
  /\ map_Forall (fun _ r => Review.user r <> u)
                (reviews (delete_account st request).1)
  /\ map_Forall (fun _ r => Rate.user r <> u)
                (ratings (delete_account st request).1).
Proof.
  intros Hu. unfold delete_account, check_permissions. simpl. rewrite Hu.
  simpl. split; [ done | ]. split; [ done | ]. split; [ done | ].
  split; [ intros k p; apply map_lookup_filter_Some | ].
  refine (conj _ (conj _ _));
    intros k row [_ [Hrow _]]%map_lookup_filter_Some; done.
Qed.

(** X21. The cascades leave no dangling reference: on a store in which
    every foreign key points to a row that is there, that still holds after
    an account has been deleted and after a product has been destroyed. *)
Theorem cascades_keep_references (st : DB) (u pk : Z) :
  references_kept st ->
  references_kept (delete_user st u)
  /\ references_kept (ProductViewSet.perform_destroy st pk).
Proof.
  intros (Ht & Hp & Ho & Hr & Ha). split.
  - unfold references_kept, delete_user. simpl.
    assert (forall w : Z, w <> u -> is_Some (users st !! w) ->
              is_Some (delete u (users st) !! w)) as Huser.
    { intros w Hne Hw. by rewrite lookup_delete_ne. }
    assert (forall product : Z,
              product_stays st u product = true ->
              is_Some (products st !! product) ->
              is_Some (filter (fun kv : Z * Product.t => Product.user kv.2 <> u)
                              (products st) !! product)) as Hprod.
    { intros product Hs [p Hprod]. exists p. apply map_lookup_filter_Some.
      split; [ done | ]. by apply (product_stays_true st u product). }
    refine (conj _ (conj _ (conj _ (conj _ _)))).
    + intros w key [Hne Hw]%lookup_delete_Some.
      apply Huser; [ done | apply (Ht _ _ Hw) ].
    + intros k p [Hk Hne]%map_lookup_filter_Some.
      apply Huser; [ done | apply (Hp _ _ Hk) ].
    + intros k o [Hk [Hne Hs]]%map_lookup_filter_Some.
      destruct (Ho _ _ Hk) as [Hw Hq]. split; eauto.
    + intros k r [Hk [Hne Hs]]%map_lookup_filter_Some.
      destruct (Hr _ _ Hk) as [Hw Hq]. split; eauto.
    + intros k r [Hk [Hne Hs]]%map_lookup_filter_Some.
      destruct (Ha _ _ Hk) as [Hw Hq]. split; eauto.
  - unfold references_kept, ProductViewSet.perform_destroy. simpl.
    refine (conj _ (conj _ (conj _ (conj _ _)))).
    + done.
    + intros k p [_ Hk]%lookup_delete_Some. apply (Hp _ _ Hk).
    + intros k o [Hk Hne]%map_lookup_filter_Some.
      destruct (Ho _ _ Hk) as [Hw Hq]. split; [ done | ].
      by rewrite lookup_delete_ne.
    + intros k r [Hk Hne]%map_lookup_filter_Some.
      destruct (Hr _ _ Hk) as [Hw Hq]. split; [ done | ].
      by rewrite lookup_delete_ne.
    + intros k r [Hk Hne]%map_lookup_filter_Some.
      destruct (Ha _ _ Hk) as [Hw Hq]. split; [ done | ].
      by rewrite lookup_delete_ne.
Qed.

End AccountsFurther.

(** ** Login and logout, further *)

Section LoginFurther.
Context {framework : Framework}.
Import UsersViews.

(** X22. [login] writes nothing but a token: every other table stays, the
    tokens of the other users stay, and an answer other than "Login
    successful" leaves the store as it was. *)
Theorem login_writes_only_a_token (key : string) (st : DB) (request : Request.t) :
  users (login key st request).1 = users st
  /\ products (login key st request).1 = products st
  /\ orders (login key st request).1 = orders st
  /\ reviews (login key st request).1 = reviews st
  /\ ratings (login key st request).1 = ratings st
  /\ tokens st ⊆ tokens (login key st request).1
  /\ ((forall token : string,
         (login key st request).2 <> LoginSuccessful token) ->
      (login key st request).1 = st).
Proof.
  unfold login, LoginSerializer.to_representation,
    LoginSerializer.Token_get_or_create.
  destruct (LoginSerializer.run_validation _ _) as [e | u];
    [ by destruct e | ].
  destruct (tokens st !! u) as [token | ] eqn:Ht; [ done | ].
  case_bool_decide; [ done | ]. simpl.
  repeat split; [ by apply insert_subseteq | ].
  intros Hno. by destruct (Hno key).
Qed.

(** X23. [logout] deletes the token of the caller and nothing else; a
    second [logout] is answered 400, "Token does not exist", and the next
    [login] of that user is given the key drawn for it, stored as the
    user's new token. *)
Theorem logout_revokes_token (st : DB) (request login_request : Request.t)
    (u : Z) (token key : string) :
  Request.user request = Some u ->
  tokens st !! u = Some token ->
  LoginSerializer.run_validation st (Request.data login_request) = inr u ->
  ~ map_Exists (fun _ k => k = key) (delete u (tokens st)) ->
  logout st request
    = (with_tokens (delete u (tokens st)) st,
       Response (Message "You have successfully logged out") HTTP_200_OK)
  /\ logout (logout st request).1 request
     = ((logout st request).1,
        Response (Errors [("error", "Token does not exist")]) HTTP_400_BAD_REQUEST)
  /\ login key (logout st request).1 login_request
     = (with_tokens (<[u := key]> (tokens st)) st, LoginSuccessful key).
Proof.
  intros Hu Ht Hval Hkey. unfold logout. rewrite Hu, Ht. simpl.
  rewrite lookup_delete_eq. split; [ done | ]. split; [ done | ].
  unfold login.
  rewrite (run_validation_users st (with_tokens (delete u (tokens st)) st))
    by done.
  rewrite Hval. unfold LoginSerializer.to_representation,
    LoginSerializer.Token_get_or_create. simpl.
  rewrite lookup_delete_eq, bool_decide_false by done.
  unfold with_tokens. simpl. by rewrite insert_delete_eq.
Qed.

Lemma step_token_keys_distinct (st : DB) (ev : event) :
  token_keys_distinct st -> token_keys_distinct (step st ev).
Proof.
  intros Hinv. destruct ev as [key request | request]; simpl.
  - unfold login, LoginSerializer.to_representation,
      LoginSerializer.Token_get_or_create.
    destruct (LoginSerializer.run_validation _ _) as [e | u];
      [ by destruct e | ].
    destruct (tokens st !! u) as [token | ] eqn:Ht; [ done | ].
    case_bool_decide as Hnew; [ done | ]. simpl.
    intros u1 u2 k. simpl.
    destruct (decide (u = u1)) as [<- | H1];
      destruct (decide (u = u2)) as [<- | H2]; try done.
    + rewrite lookup_insert_eq, lookup_insert_ne by done.
      intros [= <-] H. destruct Hnew. by exists u2, key.
    + rewrite lookup_insert_eq, lookup_insert_ne by done.
      intros H [= <-]. destruct Hnew. by exists u1, key.
    + rewrite !lookup_insert_ne by done. apply Hinv.
  - unfold logout.
    destruct (Request.user request) as [u | ]; [ | done ].
    destruct (tokens st !! u); [ | done ]. simpl.
    intros u1 u2 k. simpl.
    intros [_ H1]%lookup_delete_Some [_ H2]%lookup_delete_Some.
    by apply (Hinv u1 u2 k).
Qed.

(** X24. No two users ever hold the same token key: the property is kept
    by every sequence of logins and logouts. *)
Theorem logins_keep_token_keys_distinct (st : DB) (evs : list event) :
  token_keys_distinct st -> token_keys_distinct (run st evs).
Proof.
  revert st. induction evs as [ | ev evs IH ]; intros st Hinv; [ done | ].
  simpl. by apply IH, step_token_keys_distinct.
Qed.

End LoginFurther.

(** ** The profile *)

Section ProfileFurther.
Context {framework : Framework}.

Lemma profile_to_internal_value_free (partial : bool) (st : DB) (u : Z)
    (data : gmap string pyval) (d : ProfileAPIView.validated) :
  ProfileAPIView.to_internal_value partial st u data = inr d ->
  forall v : string,
    ProfileAPIView.username d = Some v ->
    forall (k : Z) (row : CustomUser.t),
      users st !! k = Some row -> k <> u -> CustomUser.username row <> v.
Proof.
  unfold ProfileAPIView.to_internal_value.
  apply (is_valid_holds
           (fun d => forall v : string,
              ProfileAPIView.username d = Some v ->
              forall (k : Z) (row : CustomUser.t),
                users st !! k = Some row -> k <> u ->
                CustomUser.username row <> v)).
  apply gather_holds; [ | intros b d' _ Hd; simpl; assumption ].
  apply gather_holds; [ done | ].
  intros b d' Hr _ v [= <-] k row Hrow Hne Heq. simpl in *.
  unfold field_value in Hr.
  destruct (data !! "username") as [x | ]; [ | by destruct partial ].
  injection Hr as Hr. simpl in Hr.
  destruct (CharField (Some 100%nat) x) as [s | code | e]; simpl in Hr;
    try discriminate.
  destruct (taken CustomUser.username (Some u) st s) eqn:Ht;
    [ discriminate | ].
  injection Hr as <-. unfold taken in Ht.
  apply bool_decide_eq_false in Ht. apply Ht. exists k, row.
  repeat split; [ done | done | congruence ].
Qed.

(** X25. A profile update writes the caller's own account only, and of it
    only the user name and the picture: address, country and password stay,
    the other accounts and all other tables stay, and user names and
    addresses stay unique. *)
Theorem profile_update_own_name_and_picture (st st' : DB) (request : Request.t)
    (u : Z) (user : CustomUser.t) :
  Request.user request = Some u ->
  users st !! u = Some user ->
  st' = (ProfileAPIView.update st request).1
  \/ st' = (ProfileAPIView.partial_update st request).1 ->
  (exists user' : CustomUser.t,
     users st' !! u = Some user'
     /\ CustomUser.email user' = CustomUser.email user
     /\ CustomUser.country user' = CustomUser.country user
     /\ CustomUser.password user' = CustomUser.password user
     /\ CustomUser.is_active user' = CustomUser.is_active user)
  /\ (forall k : Z, k <> u -> users st' !! k = users st !! k)
  /\ tokens st' = tokens st /\ products st' = products st
  /\ orders st' = orders st /\ reviews st' = reviews st
  /\ ratings st' = ratings st
  /\ (unique_accounts st -> unique_accounts st').
Proof.
  intros Hu Huser Hst'.
  assert (exists partial, st' = (ProfileAPIView.update_with partial st request).1)
    as [partial ->].
  { destruct Hst' as [-> | ->]; by eexists. }
  unfold ProfileAPIView.update_with, check_permissions. simpl.
  rewrite Hu, Huser. simpl.
  destruct (ProfileAPIView.to_internal_value partial st u (Request.data request))
    as [e | d] eqn:Hd; simpl.
  { split; [ by exists user | done ]. }
  pose proof (profile_to_internal_value_free _ _ _ _ _ Hd) as Hfree.
  split; [ eexists; by rewrite lookup_insert_eq | ].
  split; [ intros k Hne; by rewrite lookup_insert_ne | ].
  do 5 (split; [ done | ]).
  intros Hinv k1 k2 u1 u2. simpl.
  assert (forall (k : Z) (row : CustomUser.t),
            users st !! k = Some row -> k <> u ->
            ~ (CustomUser.username (ProfileAPIView.serializer_update user d)
                 = CustomUser.username row
               \/ CustomUser.email (ProfileAPIView.serializer_update user d)
                 = CustomUser.email row)) as Hother.
  { intros k row Hrow Hne [Hsame | Hsame]; simpl in Hsame.
    - destruct (ProfileAPIView.username d) as [v | ] eqn:Hv; simpl in Hsame.
      + by apply (Hfree v eq_refl k row).
      + apply Hne. symmetry. apply (Hinv u k user row); auto.
    - apply Hne. symmetry. apply (Hinv u k user row); auto. }
  destruct (decide (u = k1)) as [<- | H1];
    destruct (decide (u = k2)) as [<- | H2]; try done.
  - rewrite lookup_insert_eq, lookup_insert_ne by done.
    intros [= <-] Hrow Hsame. by destruct (Hother k2 u2).
  - rewrite lookup_insert_eq, lookup_insert_ne by done.
    intros Hrow [= <-] Hsame. destruct (Hother k1 u1); [ done | done | ].
    destruct Hsame as [<- | <-]; auto.
  - rewrite !lookup_insert_ne by done. apply Hinv.
Qed.

End ProfileFurther.

(** ** The further properties at work on the example store *)

Section FurtherInstances.
Import OrderViewSet.


Lemma other_products_untouched :
  products (create_order shop (order_request 2 (PyInt 3)) 1).1 !! 9
  = products shop !! 9.
Proof.
  destruct (create_order_frame shop (order_request 2 (PyInt 3)) 1)
    as (_ & _ & _ & _ & Hother & _).
  apply Hother. lia.
Defined.

Lemma negative_quantity_adds_stock :
  Product.stock_quantity <$>
    products (create_order shop_with_order (order_request 2 (PyStr "-2")) 1).1 !! 1
  = Some (5 - -2).
Proof.
  apply (create_order_saves_stock_first shop_with_order
           (order_request 2 (PyStr "-2")) 2 1 shirt (PyStr "-2") (-2));
    try reflexivity; simpl; unfold positive_integer_max; lia.
Defined.

Lemma list_quantity_is_a_TypeError :
  create_order shop (order_request 2 (PyList [PyInt 1])) 1
  = (shop, Raised (Builtin TypeError)).
Proof.
  destruct (create_order_uncaught_conversion shop
              (order_request 2 (PyList [PyInt 1])) 2 1 shirt (PyList [PyInt 1])
              eq_refl eq_refl eq_refl) as (Hlist & _).
  apply (Hlist (PyInt 1) []). reflexivity.
Defined.

Lemma refused_order_leaves_shop :
  (create_order shop (order_request 2 (PyInt 6)) 1).1 = shop.
Proof.
  destruct (create_order_refusals_leave_store shop (order_request 2 (PyInt 6)) 1)
    as (_ & Hsame).
  apply Hsame. right; right; left. reflexivity.
Defined.

Lemma order_in_the_name_of_user_2 :
  create shop order_for_2_by_3
  = (with_orders (<[next_pk (orders shop) := Order.mk 1 4 2]> (orders shop)) shop,
     Response (OrderData None (Order.mk 1 4 2)) HTTP_201_CREATED).
Proof.
  apply (order_create_stores_body shop order_for_2_by_3 3 1 4 2);
    try reflexivity.
  - by exists shirt.
  - by eexists.
  - unfold positive_integer_max. lia.
Defined.

Lemma cap_within_bounds :
  product_valid (Product.mk "cap" 1250 "a cap" None 4 20 "socks" 2).
Proof.
  apply (product_create_within_bounds (framework := plain_fields) 20 shop
           (ProductViewSet.create (framework := plain_fields) 20 shop
              (Request.mk (Some 2) (new_product []) ∅)).1
           (Request.mk (Some 2) (new_product []) ∅)
           "Product(s) uploaded successfully!"
           (Product.mk "cap" 1250 "a cap" None 4 20 "socks" 2) 0%Q).
  vm_compute. reflexivity.
Defined.

Lemma renamed_shirt_keeps_owner :
  exists p' : Product.t,
    products (ProductViewSet.partial_update (framework := plain_fields)
                shop owner_renames 1).1 !! 1 = Some p'
    /\ Product.user p' = 7.
Proof.
  destruct (product_update_keeps_owner (framework := plain_fields) shop
              (ProductViewSet.partial_update (framework := plain_fields)
                 shop owner_renames 1).1 owner_renames 1 shirt eq_refl
              (or_intror eq_refl)) as ((p' & Hp' & Hu & _) & _).
  exists p'. split; [ exact Hp' | exact Hu ].
Defined.

Lemma shirt_cannot_be_given_away :
  ProductViewSet.partial_update (framework := plain_fields) shop owner_gives_away 1
  = (shop, Response (ProductViewSet.serializer_data "Product partially updated!"
                       shop 1 shirt) HTTP_200_OK).
Proof.
  apply (product_patch_without_fields (framework := plain_fields)
           shop owner_gives_away 7 1 shirt); try reflexivity.
  intros k Hk. rewrite writable_fields in Hk. unfold owner_gives_away. simpl.
  apply lookup_singleton_ne. intros <-.
  repeat (apply elem_of_cons in Hk as [Hk | Hk]; [ discriminate Hk | ]).
  by apply elem_of_nil in Hk.
Defined.

Lemma destroyed_shirt_is_gone :
  products (ProductViewSet.destroy (framework := plain_fields)
              shop_with_order (bare_request 7) 1).1
  = delete 1 (products shop_with_order).
Proof.
  apply (product_destroy_cascades (framework := plain_fields)
           shop_with_order (bare_request 7) 7 1 shirt); reflexivity.
Defined.

Lemma shirt_is_found :
  ProductViewSet.get_object (framework := plain_fields) shop (bare_request 2) 1
  = inr shirt.
Proof.
  destruct (product_get_object_plain (framework := plain_fields)
              shop (bare_request 2) 1) as (_ & Hplain).
  rewrite Hplain; reflexivity.
Defined.

Lemma rewritten_review_keeps_author :
  exists r' : Review.t,
    reviews (ReviewViewSet.update (framework := plain_fields)
               shop_with_review author_rewrites 1).1 !! 1 = Some r'
    /\ Review.user r' = 3.
Proof.
  destruct (review_update_keeps_author (framework := plain_fields)
              shop_with_review
              (ReviewViewSet.update (framework := plain_fields)
                 shop_with_review author_rewrites 1).1
              author_rewrites 1 (Review.mk 1 3 (Some "fine") 0) eq_refl
              (or_introl eq_refl)) as ((r' & Hr' & Hu & _) & _).
  exists r'. split; [ exact Hr' | exact Hu ].
Defined.

Lemma anonymous_order_is_refused :
  create_order shop anonymous_request 1 = (shop, Raised NotAuthenticated).
Proof.
  apply (anonymous_cannot_write (framework := plain_fields) 0 shop
           anonymous_request 1 eq_refl).
Defined.

Lemma ratings_of_the_shirt : ProductSerializer.ratings_of rated 1 = [5; 4].
Proof. vm_compute. reflexivity. Defined.

Lemma average_of_4_and_5_between :
  (inject_Z 0 <= ProductSerializer.get_average_rating rated 1 <= inject_Z 5)%Q.
Proof.
  apply (average_rating_between rated 1 0 5); [ lia | ].
  rewrite ratings_of_the_shirt. intros r Hr.
  repeat (apply elem_of_cons in Hr as [-> | Hr]; [ lia | ]).
  by apply elem_of_nil in Hr.
Defined.

Lemma rated_within : ratings_within rated.
Proof.
  unfold ratings_within, rated. cbn [ratings with_ratings].
  apply map_Forall_insert_2; [ simpl; lia | ].
  apply map_Forall_singleton. simpl. lia.
Defined.

Lemma ratings_stay_within :
  ratings_within (fold_left RateViewset.serve rating_calls rated).
Proof. apply (rating_api_keeps_bounds rated rating_calls rated_within). Defined.

Lemma user_7_deletes_rating_of_user_2 :
  RateViewset.destroy rated (bare_request 7) 1
  = (with_ratings (delete 1 (ratings rated)) rated, Reply None HTTP_204_NO_CONTENT).
Proof.
  apply (rating_write_by_anyone rated (bare_request 7) 7 1 (Rate.mk 2 1 4));
    reflexivity.
Defined.

Lemma passwords_that_differ :
  AccountViews.register (framework := plain_fields) (accounts := plain_accounts)
    shop (dan_registers "pW")
  = (shop, Response (Errors [("non_field_errors", "Passwords must match.")])
                    HTTP_400_BAD_REQUEST).
Proof.
  destruct (register_refusals_write_nothing (framework := plain_fields)
              (accounts := plain_accounts) shop (dan_registers "pW"))
    as (_ & Hdiffer).
  apply (Hdiffer (dan_validated "pW")); [ vm_compute; reflexivity | ].
  simpl. discriminate.
Defined.



Lemma dan_registers_and_logs_in :
  exists (token : string) (st'' : DB),
    UsersViews.login (framework := plain_fields) "k7"
      (AccountViews.register (framework := plain_fields)
         (accounts := plain_accounts) shop (dan_registers "pw")).1 dan_logs_in
    = (st'', LoginSuccessful token)
    /\ tokens st'' !! next_pk (users shop) = Some token
    /\ (CustomUser.username <$> users st'' !! next_pk (users shop)) = Some "dan".
Proof.
  apply (register_then_login (framework := plain_fields)
           (accounts := plain_accounts) shop
           (AccountViews.register (framework := plain_fields)
              (accounts := plain_accounts) shop (dan_registers "pw")).1
           (dan_registers "pw") dan_logs_in
           "User dan has been created successfully" "k7" "dan" "pw"
           (dan_validated "pw") (PyStr "dan") (PyStr "pw")).
  - intros raw. simpl. apply String.eqb_refl.
  - vm_compute. reflexivity.
  - vm_compute. reflexivity.
  - reflexivity.
  - reflexivity.
  - reflexivity.
  - reflexivity.
  - reflexivity.
  - reflexivity.
  - refine (proj1 (bool_decide_eq_false _) _). vm_compute. reflexivity.
Defined.

Lemma account_of_user_2_is_deleted :
  users (AccountViews.delete_account shop_with_order (bare_request 2)).1
  = delete 2 (users shop_with_order).
Proof.
  apply (delete_account_cascades shop_with_order (bare_request 2) 2 eq_refl).
Defined.

Lemma shop_with_order_references : references_kept shop_with_order.
Proof.
  unfold references_kept, shop_with_order, shop. cbn.
  refine (conj _ (conj _ (conj _ (conj _ _)))).
  - apply map_Forall_empty.
  - apply map_Forall_singleton. by eexists.
  - apply map_Forall_singleton. split; by eexists.
  - apply map_Forall_empty.
  - apply map_Forall_empty.
Defined.

Lemma references_after_account_2 :
  references_kept (AccountViews.delete_user shop_with_order 2).
Proof.
  apply (cascades_keep_references shop_with_order 2 1 shop_with_order_references).
Defined.

Lemma mistyped_password_writes_nothing :
  (UsersViews.login (framework := plain_fields) "k1" shop ann_mistypes).1 = shop.
Proof.
  destruct (login_writes_only_a_token (framework := plain_fields) "k1" shop
              ann_mistypes) as (_ & _ & _ & _ & _ & _ & Hsame).
  apply Hsame. intros token. vm_compute. discriminate.
Defined.

Lemma ann_logs_out_and_in :
  UsersViews.login (framework := plain_fields) "k9"
    (UsersViews.logout after_first_login (bare_request 2)).1 ann_logs_in
  = (with_tokens (<[2 := "k9"]> (tokens after_first_login)) after_first_login,
     LoginSuccessful "k9").
Proof.
  apply (logout_revokes_token (framework := plain_fields) after_first_login
           (bare_request 2) ann_logs_in 2 "k1" "k9" eq_refl).
  - vm_compute. reflexivity.
  - vm_compute. reflexivity.
  - refine (proj1 (bool_decide_eq_false _) _). vm_compute. reflexivity.
Defined.

Lemma shop_token_keys_distinct : token_keys_distinct shop.
Proof. intros u1 u2 key H1. simpl in H1. by rewrite lookup_empty in H1. Defined.

Lemma token_keys_after_logins :
  token_keys_distinct
    (UsersViews.run (framework := plain_fields) shop between_logins).
Proof.
  apply (logins_keep_token_keys_distinct (framework := plain_fields)
           shop between_logins shop_token_keys_distinct).
Defined.

Lemma ann_renames_herself :
  exists user' : CustomUser.t,
    users (ProfileAPIView.partial_update (framework := plain_fields)
             shop ann_renames).1 !! 2 = Some user'
    /\ CustomUser.email user' = "ann@example.org"
    /\ CustomUser.password user' = "secret".
Proof.
  destruct (profile_update_own_name_and_picture (framework := plain_fields) shop
              (ProfileAPIView.partial_update (framework := plain_fields)
                 shop ann_renames).1 ann_renames 2 (a_user "ann")
              eq_refl eq_refl (or_intror eq_refl))
    as ((user' & Hu & He & _ & Hp & _) & _).
  exists user'. split; [ exact Hu | ]. split; [ exact He | exact Hp ].
Defined.

End FurtherInstances.
